(** * Inventory manager: the service layer of [inventario_mongo_tk.py]

    [inventario_mongo_tk.py] holds two programs, one after the other; the
    first has the users and the sales history, the second is the earlier
    one without them and with the same product functions.  This file is a
    shallow embedding of the business functions of the first
    ([agregar_producto], [buscar_producto], [modificar_producto],
    [eliminar_producto], [mostrar_inventario], [realizar_venta],
    [generar_reporte], [obtener_ventas]) and of the query that the
    sales-history window builds ([cargar_ventas]), followed by the
    properties the specification states about them.

    Modelling choices.
    - Python [int] is [Z]; Python [float] is the binary64 [float] of
      [Floats], so a price can be an infinity or a NaN exactly as in the
      program.  [int * float] converts the integer first ([float_of_int]).
    - Python [str] is [string], the text in UTF-8.  What depends on the
      characters of a text ([strip], [int], [$regex] with its folding of
      letter case) is modelled for texts in ASCII; the properties that
      depend on it say so in their hypotheses, and a search outside that
      range has no answer in the model.
    - An exception is a value of [excepcion]: the class and the message of
      the [raise] statement.  A function that writes returns the new state
      of the store with a [resultado].
    - A MongoDB collection is the list of its documents in insertion
      order.  Documents have the fixed shape the program writes.  The two
      module-level handles [coleccion_productos] and [coleccion_ventas] are
      [None] when the connection could not be set up.  The 64-bit limit of
      the store's integers and network failures of the products collection
      are not modelled; the failure of [coleccion_ventas.insert_one], which
      the program catches, is.  A property that sends an integer of the
      caller to the store and says that the call returns has the limit as
      a hypothesis ([cabe_int64], [cambios_admitidos]).
    - The specification names the operations in English ([Add], [Update],
      [Remove], [Execute], [Search], [History]) and sorts the exceptions
      into error kinds; module [Spec] holds that vocabulary. *)

From Stdlib Require Import ZArith List String Ascii Bool Lia Floats.
From Stdlib Require Import DecimalString Sorting.Sorted Sorting.Permutation.
Import ListNotations.
Open Scope Z_scope.

(* ================================================================== *)
(** ** Python values *)

Module Py.

(** [bool(s)] for a [str]: the empty string is false. *)
Definition truthy (s : string) : bool :=
  match s with
  | EmptyString => false
  | String _ _ => true
  end.

(** [bool(x)] for [x : Optional[str]]. *)
Definition truthy_opt (x : option string) : bool :=
  match x with
  | None => false
  | Some s => truthy s
  end.

(** [x or None] for a [str]. *)
Definition or_None (s : string) : option string :=
  if truthy s then Some s else None.

(** [float(z)]: nearest binary64, ties to even.  (CPython raises
    [OverflowError] beyond the binary64 range, where this gives an
    infinity.) *)
Definition float_of_int (z : Z) : float :=
  SF2Prim (binary_normalize prec emax z 0 false).

(** [z * x] for an [int] and a [float]. *)
Definition mul_int_float (z : Z) (x : float) : float :=
  (float_of_int z * x)%float.

(** [str(z)], as an f-string formats an [int]. *)
Definition str_of_int (z : Z) : string :=
  NilZero.string_of_int (Z.to_int z).

(** White space in ASCII, as [str.strip] removes it.  ([str.strip]
    removes the white space outside ASCII as well; [strip] below stands
    for it on texts in ASCII.) *)
Definition es_espacio (c : ascii) : bool :=
  let n := N_of_ascii c in
  ((9 <=? n) && (n <=? 13) || (28 <=? n) && (n <=? 32))%N.

Fixpoint lstrip (s : string) : string :=
  match s with
  | EmptyString => EmptyString
  | String c s' => if es_espacio c then lstrip s' else s
  end.

Fixpoint rstrip (s : string) : string :=
  match s with
  | EmptyString => EmptyString
  | String c s' =>
      match rstrip s' with
      | EmptyString => if es_espacio c then EmptyString else String c EmptyString
      | r => String c r
      end
  end.

(** [s.strip()]. *)
Definition strip (s : string) : string := rstrip (lstrip s).

(** A character of ASCII, and a text made of them. *)
Definition es_ascii (c : ascii) : bool := (N_of_ascii c <? 128)%N.

Definition texto_ascii (s : string) : bool :=
  forallb es_ascii (list_ascii_of_string s).

(** The white space that [int] skips around a literal in ASCII: the one
    of C's [isspace]. *)
Definition es_espacio_c (c : ascii) : bool :=
  let n := N_of_ascii c in
  ((9 <=? n) && (n <=? 13) || (n =? 32))%N.

Fixpoint sin_espacio_c_izq (s : string) : string :=
  match s with
  | EmptyString => EmptyString
  | String c s' => if es_espacio_c c then sin_espacio_c_izq s' else s
  end.

Fixpoint sin_espacio_c_der (s : string) : string :=
  match s with
  | EmptyString => EmptyString
  | String c s' =>
      match sin_espacio_c_der s' with
      | EmptyString =>
          if es_espacio_c c then EmptyString else String c EmptyString
      | r => String c r
      end
  end.

(** [int(s)] for a [str] in ASCII: surrounding white space, an optional
    sign, then decimal digits, where single underscores may separate
    digits.  [None] stands for the [ValueError] of an invalid literal.
    (A text with characters outside ASCII, where CPython knows more
    digits and more white space, is outside the model: see
    [buscar_producto].) *)
Definition es_digito (c : ascii) : bool :=
  let n := N_of_ascii c in ((48 <=? n) && (n <=? 57))%N.

Definition valor_digito (c : ascii) : Z := Z.of_N (N_of_ascii c) - 48.

Fixpoint digitos (s : string) (acc : Z) (tras_digito : bool) : option Z :=
  match s with
  | EmptyString => if tras_digito then Some acc else None
  | String c s' =>
      if es_digito c then digitos s' (10 * acc + valor_digito c) true
      else if Ascii.eqb c "_" && tras_digito then digitos s' acc false
      else None
  end.

Definition int_of_str (s : string) : option Z :=
  match sin_espacio_c_der (sin_espacio_c_izq s) with
  | String "-" s' => option_map Z.opp (digitos s' 0 false)
  | String "+" s' => digitos s' 0 false
  | s' => digitos s' 0 false
  end.

(** ASCII lower case of one character. *)
Definition minuscula (c : ascii) : ascii :=
  let n := N_of_ascii c in
  if ((65 <=? n) && (n <=? 90))%N then ascii_of_N (n + 32) else c.


(** [datetime.datetime]: compared field by field, most significant
    first. *)
Record datetime := mk_datetime {
  year : Z; month : Z; day : Z;
  hour : Z; minute : Z; second : Z; microsecond : Z
}.

Definition campos (d : datetime) : list Z :=
  [year d; month d; day d; hour d; minute d; second d; microsecond d].

Fixpoint lex_compare (l1 l2 : list Z) : comparison :=
  match l1, l2 with
  | [], [] => Eq
  | [], _ :: _ => Lt
  | _ :: _, [] => Gt
  | x :: l1', y :: l2' =>
      match x ?= y with
      | Eq => lex_compare l1' l2'
      | c => c
      end
  end.

Definition datetime_compare (a b : datetime) : comparison :=
  lex_compare (campos a) (campos b).

(** [a <= b] on [datetime]. *)
Definition datetime_leb (a b : datetime) : bool :=
  match datetime_compare a b with
  | Gt => false
  | _ => true
  end.

(** [d.replace(hour=h, minute=mi, second=s)]. *)
Definition replace_hms (d : datetime) (h mi s : Z) : datetime :=
  {| year := year d; month := month d; day := day d;
     hour := h; minute := mi; second := s;
     microsecond := microsecond d |}.

(** [datetime.datetime.strptime(txt, "%Y-%m-%d")] for a text that denotes
    the calendar date [y]-[mo]-[d]: midnight of that day. *)
Definition strptime_Ymd (y mo d : Z) : datetime :=
  {| year := y; month := mo; day := d;
     hour := 0; minute := 0; second := 0; microsecond := 0 |}.

End Py.

(* ================================================================== *)
(** ** Outcomes *)

(** The messages of the [raise] statements. *)
Inductive mensaje : Type :=
| msg_sin_conexion
| msg_sin_conexion_ventas
| msg_nombre_vacio
| msg_categoria_invalida
| msg_precio_negativo
| msg_cantidad_negativa
| msg_proveedor_vacio
| msg_ya_existe (id_producto : Z)
| msg_criterio_invalido
| msg_int_invalido
| msg_no_existe
| msg_cantidad_vendida
| msg_sin_stock.

(** The text of each message. *)
Definition texto (m : mensaje) : string :=
  match m with
  | msg_sin_conexion => "No hay conexión con la base de datos."
  | msg_sin_conexion_ventas => "No hay conexión con la base de datos de ventas."
  | msg_nombre_vacio => "El nombre no puede estar vacío."
  | msg_categoria_invalida => "La categoría no es válida."
  | msg_precio_negativo => "El precio no puede ser negativo."
  | msg_cantidad_negativa => "La cantidad no puede ser negativa."
  | msg_proveedor_vacio => "El proveedor no puede estar vacío."
  | msg_ya_existe i =>
      "Ya existe un producto con ID " ++ Py.str_of_int i ++ "."
  | msg_criterio_invalido => "Criterio de búsqueda no válido."
  | msg_int_invalido => "invalid literal for int() with base 10"
      (* followed by the literal *)
  | msg_no_existe => "No existe un producto con ese ID."
  | msg_cantidad_vendida => "La cantidad vendida debe ser mayor a 0."
  | msg_sin_stock => "No hay stock suficiente."
  end%string.

Inductive excepcion : Type :=
| RuntimeError (m : mensaje)
| ValueError (m : mensaje).

Inductive resultado (A : Type) : Type :=
| Retorna (a : A)
| Lanza (e : excepcion).

Arguments Retorna {A} a.
Arguments Lanza {A} e.

(* ================================================================== *)
(** ** Documents *)

(** A document of the collection [productos]. *)
Record producto : Type := mk_producto {
  id_producto : Z;
  nombre : string;
  categoria : string;
  precio : float;
  cantidad : Z;
  proveedor : string
}.

(** A document of the collection [ventas], as [realizar_venta] builds
    it. *)
Record venta : Type := mk_venta {
  v_id_producto : Z;
  v_nombre : string;
  v_cantidad : Z;
  v_precio_unitario : float;
  v_total : float;
  v_fecha : Py.datetime;
  v_usuario : option string
}.

(** The dictionary [nuevos_datos] of [modificar_producto], restricted to
    the keys of a product document: a key is either absent or bound. *)
Record cambios : Type := mk_cambios {
  c_id_producto : option Z;
  c_nombre : option string;
  c_categoria : option string;
  c_precio : option float;
  c_cantidad : option Z;
  c_proveedor : option string
}.

(** [{"cantidad": n}]. *)
Definition solo_cantidad (n : Z) : cambios :=
  {| c_id_producto := None; c_nombre := None; c_categoria := None;
     c_precio := None; c_cantidad := Some n; c_proveedor := None |}.

(* ================================================================== *)
(** ** The document store *)

Module Mongo.

Section Coleccion.
Context {doc : Type}.

(** [find_one(filtro)]: the first document that matches. *)
Fixpoint find_one (filtro : doc -> bool) (c : list doc) : option doc :=
  match c with
  | [] => None
  | d :: c' => if filtro d then Some d else find_one filtro c'
  end.

(** [find(filtro)]: the matching documents, in insertion order. *)
Definition find (filtro : doc -> bool) (c : list doc) : list doc :=
  filter filtro c.

(** [insert_one(d)]. *)
Definition insert_one (d : doc) (c : list doc) : list doc := c ++ [d].

(** [update_one(filtro, cambio)]: the first matching document is
    rewritten; the result carries [matched_count]. *)
Fixpoint update_one (filtro : doc -> bool) (cambio : doc -> doc)
    (c : list doc) : list doc * Z :=
  match c with
  | [] => ([], 0)
  | d :: c' =>
      if filtro d then (cambio d :: c', 1)
      else let (r, n) := update_one filtro cambio c' in (d :: r, n)
  end.

(** [delete_one(filtro)]: the first matching document is removed; the
    result carries [deleted_count]. *)
Fixpoint delete_one (filtro : doc -> bool) (c : list doc)
    : list doc * Z :=
  match c with
  | [] => ([], 0)
  | d :: c' =>
      if filtro d then (c', 1)
      else let (r, n) := delete_one filtro c' in (d :: r, n)
  end.

(** [cursor.sort(key, direction)] as an insertion sort under the order
    [le] of the key; [le] is [<=] for direction 1 and [>=] for -1.  (The
    order among documents with equal keys is the store's choice; the
    sort here keeps their insertion order.) *)
Variable le : doc -> doc -> bool.

Fixpoint insertar (d : doc) (c : list doc) : list doc :=
  match c with
  | [] => [d]
  | e :: c' => if le d e then d :: c else e :: insertar d c'
  end.

Fixpoint sort (c : list doc) : list doc :=
  match c with
  | [] => []
  | d :: c' => insertar d (sort c')
  end.
End Coleccion.

(** *** [$regex] with option [i]

    The fragment modelled: a pattern in ASCII made of ordinary characters
    and of [.], which stands for any character but a line feed, searched
    in a subject in ASCII.  A pattern that uses another metacharacter of
    the syntax, or a character outside ASCII, is outside the fragment and
    [compilar] gives [None] for it; the subjects are checked where the
    pattern is used ([buscar_producto]).  A pattern is searched anywhere
    in the subject. *)

Inductive atomo : Type :=
| Literal (c : ascii)   (* an ordinary character, letter case apart *)
| Punto.                (* [.]; one character of a subject in ASCII *)

Definition metacaracteres : list ascii :=
  list_ascii_of_string "\^$.|?*+()[]{}".

Definition es_metacaracter (c : ascii) : bool :=
  existsb (Ascii.eqb c) metacaracteres.

Fixpoint compilar (patron : string) : option (list atomo) :=
  match patron with
  | EmptyString => Some []
  | String c patron' =>
      if Ascii.eqb c "." then option_map (cons Punto) (compilar patron')
      else if es_metacaracter c || negb (Py.es_ascii c) then None
      else option_map (cons (Literal c)) (compilar patron')
  end.


Definition atomo_coincide (a : atomo) (c : ascii) : bool :=
  match a with
  | Literal l => Ascii.eqb (Py.minuscula l) (Py.minuscula c)
  | Punto => negb (Ascii.eqb c "010")
  end.

Fixpoint coincide_aqui (r : list atomo) (s : string) : bool :=
  match r, s with
  | [], _ => true
  | _ :: _, EmptyString => false
  | a :: r', String c s' => atomo_coincide a c && coincide_aqui r' s'
  end.

Fixpoint regex_i (r : list atomo) (s : string) : bool :=
  coincide_aqui r s
  || match s with
     | EmptyString => false
     | String _ s' => regex_i r s'
     end.

(** A [datetime] is stored with millisecond precision. *)
Definition a_milisegundos (d : Py.datetime) : Py.datetime :=
  {| Py.year := Py.year d; Py.month := Py.month d; Py.day := Py.day d;
     Py.hour := Py.hour d; Py.minute := Py.minute d;
     Py.second := Py.second d;
     Py.microsecond := Py.microsecond d / 1000 * 1000 |}.

End Mongo.

(* ================================================================== *)
(** ** The program state *)

(** The module-level handles and what the program has printed. *)
Record mundo : Type := mk_mundo {
  coleccion_productos : option (list producto);
  coleccion_ventas : option (list venta);
  salida : list string
}.

Definition con_productos (m : mundo) (ps : list producto) : mundo :=
  {| coleccion_productos := Some ps;
     coleccion_ventas := coleccion_ventas m;
     salida := salida m |}.

Definition con_ventas (m : mundo) (vs : list venta) : mundo :=
  {| coleccion_productos := coleccion_productos m;
     coleccion_ventas := Some vs;
     salida := salida m |}.

Definition print (m : mundo) (linea : string) : mundo :=
  {| coleccion_productos := coleccion_productos m;
     coleccion_ventas := coleccion_ventas m;
     salida := salida m ++ [linea] |}.

(** What one call of [realizar_venta] reads from outside the store:
    [datetime.datetime.now()], and whether [coleccion_ventas.insert_one]
    raises ([Some e], with [e] the text of the exception) or not. *)
Record entorno : Type := mk_entorno {
  now : Py.datetime;
  insert_one_lanza : option string
}.

(* ================================================================== *)
(** ** The inventory functions *)

Definition CATEGORIAS : list string :=
  ["Computadoras"; "Smartphones"; "Accesorios"; "Periféricos"]%string.

Definition STOCK_MINIMO : Z := 5.

(** The filter [{"id_producto": i}]. *)
Definition por_id (i : Z) (p : producto) : bool := id_producto p =? i.

(** [sort("id_producto", 1)]. *)
Definition id_asc (p q : producto) : bool := id_producto p <=? id_producto q.

(** [sort("fecha", -1)]. *)
Definition fecha_desc (v w : venta) : bool :=
  Py.datetime_leb (v_fecha w) (v_fecha v).

(** [{"$set": nuevos_datos}] on one document. *)
Definition set_campos (nd : cambios) (p : producto) : producto :=
  let o {A} (x : option A) (d : A) := match x with Some a => a | None => d end in
  {| id_producto := o (c_id_producto nd) (id_producto p);
     nombre := o (c_nombre nd) (nombre p);
     categoria := o (c_categoria nd) (categoria p);
     precio := o (c_precio nd) (precio p);
     cantidad := o (c_cantidad nd) (cantidad p);
     proveedor := o (c_proveedor nd) (proveedor p) |}.

(** A sale document as the store keeps it: the date loses what is below
    the millisecond. *)
Definition almacenada (v : venta) : venta :=
  {| v_id_producto := v_id_producto v;
     v_nombre := v_nombre v;
     v_cantidad := v_cantidad v;
     v_precio_unitario := v_precio_unitario v;
     v_total := v_total v;
     v_fecha := Mongo.a_milisegundos (v_fecha v);
     v_usuario := v_usuario v |}.

Definition agregar_producto (m : mundo) (id : Z) (nom cat : string)
    (pre : float) (cant : Z) (prov : string) : mundo * resultado producto :=
  match coleccion_productos m with
  | None => (m, Lanza (RuntimeError msg_sin_conexion))
  | Some ps =>
      if negb (Py.truthy nom) then
        (m, Lanza (ValueError msg_nombre_vacio))
      else if negb (existsb (String.eqb cat) CATEGORIAS) then
        (m, Lanza (ValueError msg_categoria_invalida))
      else if (pre <? 0)%float then
        (m, Lanza (ValueError msg_precio_negativo))
      else if cant <? 0 then
        (m, Lanza (ValueError msg_cantidad_negativa))
      else if negb (Py.truthy prov) then
        (m, Lanza (ValueError msg_proveedor_vacio))
      else
        match Mongo.find_one (por_id id) ps with
        | Some _ => (m, Lanza (ValueError (msg_ya_existe id)))
        | None =>
            let documento :=
              {| id_producto := id; nombre := nom; categoria := cat;
                 precio := pre; cantidad := cant; proveedor := prov |} in
            (con_productos m (Mongo.insert_one documento ps),
             Retorna documento)
        end
  end.

(** Every product has the text field [campo] in ASCII. *)
Definition campo_ascii (campo : producto -> string) (ps : list producto)
    : bool :=
  forallb (fun p => Py.texto_ascii (campo p)) ps.

(** [buscar_producto].  The outer [None] is a search outside the model:
    by name or supplier, a pattern outside the modelled fragment of
    [$regex] or a catalog with that field outside ASCII; by id, a text
    outside ASCII. *)
Definition buscar_producto (m : mundo) (criterio valor : string)
    : option (resultado (list producto)) :=
  match coleccion_productos m with
  | None => Some (Lanza (RuntimeError msg_sin_conexion))
  | Some ps =>
      let resultados filtro :=
        Retorna (Mongo.sort id_asc (Mongo.find filtro ps)) in
      if (criterio =? "id")%string then
        if negb (Py.texto_ascii valor) then None
        else
          match Py.int_of_str valor with
          | None => Some (Lanza (ValueError msg_int_invalido))
          | Some i => Some (resultados (por_id i))
          end
      else if (criterio =? "nombre")%string then
        if negb (campo_ascii nombre ps) then None
        else
          option_map
            (fun r => resultados (fun p => Mongo.regex_i r (nombre p)))
            (Mongo.compilar valor)
      else if (criterio =? "proveedor")%string then
        if negb (campo_ascii proveedor ps) then None
        else
          option_map
            (fun r => resultados (fun p => Mongo.regex_i r (proveedor p)))
            (Mongo.compilar valor)
      else if (criterio =? "categoria")%string then
        Some (resultados (fun p => (categoria p =? valor)%string))
      else Some (Lanza (ValueError msg_criterio_invalido))
  end.

Definition modificar_producto (m : mundo) (id : Z) (nuevos_datos : cambios)
    : mundo * resultado bool :=
  match coleccion_productos m with
  | None => (m, Lanza (RuntimeError msg_sin_conexion))
  | Some ps =>
      let (ps', matched_count) :=
        Mongo.update_one (por_id id) (set_campos nuevos_datos) ps in
      (con_productos m ps', Retorna (0 <? matched_count))
  end.

Definition eliminar_producto (m : mundo) (id : Z) : mundo * resultado bool :=
  match coleccion_productos m with
  | None => (m, Lanza (RuntimeError msg_sin_conexion))
  | Some ps =>
      let (ps', deleted_count) := Mongo.delete_one (por_id id) ps in
      (con_productos m ps', Retorna (0 <? deleted_count))
  end.

Definition mostrar_inventario (m : mundo) : resultado (list producto) :=
  match coleccion_productos m with
  | None => Lanza (RuntimeError msg_sin_conexion)
  | Some ps => Retorna (Mongo.sort id_asc (Mongo.find (fun _ => true) ps))
  end.

Definition realizar_venta (e : entorno) (m : mundo) (id : Z)
    (cantidad_vendida : Z) (usuario : option string)
    : mundo * resultado float :=
  match coleccion_productos m with
  | None => (m, Lanza (RuntimeError msg_sin_conexion))
  | Some ps =>
      match Mongo.find_one (por_id id) ps with
      | None => (m, Lanza (ValueError msg_no_existe))
      | Some prod =>
          let stock_actual := cantidad prod in
          if cantidad_vendida <=? 0 then
            (m, Lanza (ValueError msg_cantidad_vendida))
          else if stock_actual <? cantidad_vendida then
            (m, Lanza (ValueError msg_sin_stock))
          else
            let nuevo_stock := stock_actual - cantidad_vendida in
            let m1 :=
              con_productos m
                (fst (Mongo.update_one (por_id id)
                        (set_campos (solo_cantidad nuevo_stock)) ps)) in
            let total := Py.mul_int_float cantidad_vendida (precio prod) in
            match coleccion_ventas m1 with
            | None => (m1, Retorna total)
            | Some vs =>
                let doc_venta :=
                  {| v_id_producto := id;
                     v_nombre := nombre prod;
                     v_cantidad := cantidad_vendida;
                     v_precio_unitario := precio prod;
                     v_total := total;
                     v_fecha := now e;
                     v_usuario := usuario |} in
                match insert_one_lanza e with
                | None =>
                    (con_ventas m1
                       (Mongo.insert_one (almacenada doc_venta) vs),
                     Retorna total)
                | Some err =>
                    (print m1 ("Error registrando venta: " ++ err)%string,
                     Retorna total)
                end
            end
      end
  end.

(** One step of the loop of [generar_reporte] on the pair
    [(bajo_stock, valor_total)]. *)
Definition paso_reporte (acc : list producto * float) (p : producto)
    : list producto * float :=
  let (bajo_stock, valor_total) := acc in
  let valor_total :=
    (valor_total + Py.mul_int_float (cantidad p) (precio p))%float in
  if cantidad p <? STOCK_MINIMO then (bajo_stock ++ [p], valor_total)
  else (bajo_stock, valor_total).

Definition generar_reporte (m : mundo) : resultado (list producto * float) :=
  match coleccion_productos m with
  | None => Lanza (RuntimeError msg_sin_conexion)
  | Some ps =>
      let productos := Mongo.find (fun _ => true) ps in
      Retorna (fold_left paso_reporte productos ([], 0%float))
  end.

(** The dictionary [filtro] of [obtener_ventas]: each key is absent or
    bound. *)
Record filtro_ventas : Type := mk_filtro_ventas {
  f_usuario : option string;
  f_gte : option Py.datetime;
  f_lte : option Py.datetime
}.

(** Whether a sale document matches the filter.  The bounds reach the
    store as the driver encodes them, cut to the millisecond like the
    dates stored. *)
Definition cumple (f : filtro_ventas) (v : venta) : bool :=
  match f_usuario f with
  | None => true
  | Some u =>
      match v_usuario v with
      | Some w => (w =? u)%string
      | None => false
      end
  end
  && match f_gte f with
     | None => true
     | Some d => Py.datetime_leb (Mongo.a_milisegundos d) (v_fecha v)
     end
  && match f_lte f with
     | None => true
     | Some d => Py.datetime_leb (v_fecha v) (Mongo.a_milisegundos d)
     end.

Definition obtener_ventas (m : mundo) (filtro_usuario : option string)
    (fecha_desde fecha_hasta : option Py.datetime) : resultado (list venta) :=
  match coleccion_ventas m with
  | None => Lanza (RuntimeError msg_sin_conexion_ventas)
  | Some vs =>
      let filtro :=
        {| f_usuario :=
             if Py.truthy_opt filtro_usuario then filtro_usuario else None;
           f_gte := fecha_desde;
           f_lte := fecha_hasta |} in
      Retorna (Mongo.sort fecha_desc (Mongo.find (cumple filtro) vs))
  end.

(** A calendar date typed in a field of the history window. *)
Record fecha : Type := mk_fecha { anio : Z; mes : Z; dia : Z }.

(** The query of [cargar_ventas]: the user field is stripped, the dates
    are read with [strptime], and the upper one is moved to 23:59:59.  A
    date field is [None] when left blank and [Some] of the date its text
    denotes otherwise (the parsing of the text, and the message box for a
    malformed one, belong to the window). *)
Definition cargar_ventas (m : mundo) (entry_usuario_filtro : string)
    (entry_fecha_desde entry_fecha_hasta : option fecha)
    : resultado (list venta) :=
  let filtro_usuario := Py.strip entry_usuario_filtro in
  let fecha_desde :=
    option_map (fun f => Py.strptime_Ymd (anio f) (mes f) (dia f))
               entry_fecha_desde in
  let fecha_hasta :=
    option_map
      (fun f =>
         Py.replace_hms (Py.strptime_Ymd (anio f) (mes f) (dia f)) 23 59 59)
      entry_fecha_hasta in
  obtener_ventas m (Py.or_None filtro_usuario) fecha_desde fecha_hasta.

(* ================================================================== *)
(** ** Sequences of calls *)

(** A call of one of the functions that write to the store. *)
Inductive llamada : Type :=
| Add (id : Z) (nom cat : string) (pre : float) (cant : Z) (prov : string)
| Update (id : Z) (nuevos_datos : cambios)
| Remove (id : Z)
| Execute (e : entorno) (id : Z) (cantidad_vendida : Z)
    (usuario : option string).

(** The state after a call; a call that raises is caught by the window
    and the program goes on. *)
Definition ejecutar (m : mundo) (c : llamada) : mundo :=
  match c with
  | Add id nom cat pre cant prov =>
      fst (agregar_producto m id nom cat pre cant prov)
  | Update id nd => fst (modificar_producto m id nd)
  | Remove id => fst (eliminar_producto m id)
  | Execute e id q u => fst (realizar_venta e m id q u)
  end.

Definition ejecutar_todas (m : mundo) (cs : list llamada) : mundo :=
  fold_left ejecutar cs m.

(** A store that is connected and empty. *)
Definition mundo_vacio : mundo :=
  {| coleccion_productos := Some [];
     coleccion_ventas := Some [];
     salida := [] |}.

(* ================================================================== *)
(** ** The vocabulary of the specification *)

Module Spec.

(** The error kinds of the specification; the program raises
    [RuntimeError] for the first and [ValueError] for the others, which
    the message tells apart. *)
Inductive clase : Type :=
| ConnectivityError
| ValidationError
| ConflictError
| NotFoundError
| InsufficientStockError.

Definition clasifica (e : excepcion) : clase :=
  match e with
  | RuntimeError _ => ConnectivityError
  | ValueError (msg_ya_existe _) => ConflictError
  | ValueError msg_no_existe => NotFoundError
  | ValueError msg_sin_stock => InsufficientStockError
  | ValueError _ => ValidationError
  end.


(** A field constraint of [Add] is violated: "name/supplier empty,
    category not in the fixed enumerated set, price < 0, or
    quantity < 0". *)
Definition viola_restriccion (nom cat : string) (pre : float) (cant : Z)
    (prov : string) : Prop :=
  nom = EmptyString \/ ~ In cat CATEGORIAS \/ (pre <? 0)%float = true
  \/ cant < 0 \/ prov = EmptyString.

(** "quantity >= 0 and price >= 0" for one product. *)
Definition no_negativo (p : producto) : Prop :=
  0 <= cantidad p /\ (0 <=? precio p)%float = true.

(** The same for every product of the catalog. *)
Definition catalogo_no_negativo (m : mundo) : Prop :=
  forall ps, coleccion_productos m = Some ps -> Forall no_negativo ps.

(** "total = quantity_sold * unit_price" within one sale record. *)
Definition total_coherente (v : venta) : Prop :=
  v_total v = Py.mul_int_float (v_cantidad v) (v_precio_unitario v).

(** The sum of quantity * price over a list of records, added from the
    left starting at 0.0. *)
Definition suma_valores (ps : list producto) : float :=
  fold_left
    (fun acc p => (acc + Py.mul_int_float (cantidad p) (precio p))%float)
    ps 0%float.

(** A product with its quantity replaced. *)
Definition con_cantidad (p : producto) (n : Z) : producto :=
  {| id_producto := id_producto p; nombre := nombre p;
     categoria := categoria p; precio := precio p;
     cantidad := n; proveedor := proveedor p |}.

(** The data of an [Update] carries no negative quantity and no price
    that is negative or not a number. *)
Definition cambios_no_negativos (nd : cambios) : Prop :=
  (forall n, c_cantidad nd = Some n -> 0 <= n)
  /\ (forall x, c_precio nd = Some x -> (0 <=? x)%float = true).

(** The restriction on a call under which the catalog stays
    non-negative. *)
Definition llamada_admisible (c : llamada) : Prop :=
  match c with
  | Add _ _ _ pre _ _ => is_nan pre = false
  | Update _ nd => cambios_no_negativos nd
  | Remove _ => True
  | Execute _ _ _ _ => True
  end.


(** A sale passes the filters of [History]: the user, when one is asked
    for, is exactly the sale's, and the date is within the bounds given,
    each cut to the millisecond, the bounds included. *)
Definition en_filtro (usuario : option string)
    (desde hasta : option Py.datetime) (v : venta) : Prop :=
  (forall u, usuario = Some u -> u <> EmptyString -> v_usuario v = Some u)
  /\ (forall d, desde = Some d ->
      Py.datetime_leb (Mongo.a_milisegundos d) (v_fecha v) = true)
  /\ (forall d, hasta = Some d ->
      Py.datetime_leb (v_fecha v) (Mongo.a_milisegundos d) = true).

(** Dates from the latest to the earliest. *)
Definition mas_reciente_primero (v w : venta) : Prop :=
  Py.datetime_leb (v_fecha w) (v_fecha v) = true.


(** A text in ASCII. *)
Definition en_ascii (v : string) : Prop := Py.texto_ascii v = true.


End Spec.

(* ================================================================== *)
(** ** Example data *)

Module Ejemplos.

Definition mouse : producto :=
  {| id_producto := 1; nombre := "Mouse"; categoria := "Accesorios";
     precio := 10%float; cantidad := 3; proveedor := "Acme" |}.

Definition teclado : producto :=
  {| id_producto := 2; nombre := "Teclado"; categoria := "Periféricos";
     precio := 25.5%float; cantidad := 8; proveedor := "Logi" |}.

(** A connected store that holds the two products and no sale. *)
Definition tienda : mundo :=
  {| coleccion_productos := Some [teclado; mouse];
     coleccion_ventas := Some [];
     salida := [] |}.

Definition mediodia : Py.datetime :=
  {| Py.year := 2025; Py.month := 1; Py.day := 31;
     Py.hour := 12; Py.minute := 0; Py.second := 0;
     Py.microsecond := 123456 |}.

(** The sales collection accepts the insertion. *)
Definition red_bien : entorno :=
  {| now := mediodia; insert_one_lanza := None |}.

(** The sales collection refuses it. *)
Definition red_caida : entorno :=
  {| now := mediodia; insert_one_lanza := Some "connection closed"%string |}.

(** The store after the product is added and its quantity is then
    modified to -5. *)
Definition tienda_en_negativo : mundo :=
  ejecutar_todas mundo_vacio
    [Add 1 "Mouse" "Accesorios" 10%float 3 "Acme";
     Update 1 (solo_cantidad (-5))].

(** The store after a product is added with a price that is not a
    number. *)
Definition tienda_con_nan : mundo :=
  ejecutar_todas mundo_vacio [Add 1 "Mouse" "Accesorios" nan 3 "Acme"].

(** Half a second before the midnight that ends 31 January 2025. *)
Definition ultimo_segundo : Py.datetime :=
  {| Py.year := 2025; Py.month := 1; Py.day := 31;
     Py.hour := 23; Py.minute := 59; Py.second := 59;
     Py.microsecond := 500123 |}.

Definition red_tarde : entorno :=
  {| now := ultimo_segundo; insert_one_lanza := None |}.

(** The store after a sale made at that moment. *)
Definition tienda_tras_venta_tardia : mundo :=
  fst (realizar_venta red_tarde tienda 1 2 (Some "alice"%string)).

Definition dia_31 : fecha := {| anio := 2025; mes := 1; dia := 31 |}.

(** [{"precio": x}]. *)
Definition solo_precio (x : float) : cambios :=
  {| c_id_producto := None; c_nombre := None; c_categoria := None;
     c_precio := Some x; c_cantidad := None; c_proveedor := None |}.

End Ejemplos.

(* ================================================================== *)
(** ** Users *)

Module Usuarios.

(** A document of the collection [usuarios]. *)
Record usuario : Type := mk_usuario {
  username : string;
  password : string;
  creado_por : option string
}.

(** The messages of the [raise] statements of the user functions. *)
Inductive mensaje : Type :=
| msg_sin_conexion_usuarios
| msg_usuario_vacio
| msg_contrasena_vacia
| msg_usuario_existe (username : string).

Definition texto (m : mensaje) : string :=
  match m with
  | msg_sin_conexion_usuarios =>
      "No hay conexión con la base de datos de usuarios."
  | msg_usuario_vacio => "El nombre de usuario no puede estar vacío."
  | msg_contrasena_vacia => "La contraseña no puede estar vacía."
  | msg_usuario_existe u => "Ya existe un usuario con nombre '" ++ u ++ "'."
  end%string.

Inductive excepcion : Type :=
| RuntimeError (m : mensaje)
| ValueError (m : mensaje).

Inductive resultado (A : Type) : Type :=
| Retorna (a : A)
| Lanza (e : excepcion).

Arguments Retorna {A} a.
Arguments Lanza {A} e.

(** The filter [{"username": u}]. *)
Definition por_username (u : string) (d : usuario) : bool :=
  (username d =? u)%string.

(** The filter [{"username": u, "password": p}]. *)
Definition por_credenciales (u p : string) (d : usuario) : bool :=
  (username d =? u)%string && (password d =? p)%string.

(** The account that the program inserts at start-up. *)
Definition admin : usuario :=
  {| username := "admin"; password := "admin";
     creado_por := Some "sistema"%string |}.

(** What the module does with the collection once connected: an empty
    one gets the default account, and the program says so. *)
Definition arranque (us : list usuario) : list usuario * list string :=
  if (Z.of_nat (List.length us) =? 0)
  then (Mongo.insert_one admin us,
        ["Usuario por defecto creado: admin / admin"%string])
  else (us, []).

(** [crear_usuario] on the handle [coleccion_usuarios]. *)
Definition crear_usuario (c : option (list usuario)) (usr pwd : string)
    (por : option string) : option (list usuario) * resultado usuario :=
  match c with
  | None => (c, Lanza (RuntimeError msg_sin_conexion_usuarios))
  | Some us =>
      if negb (Py.truthy usr) then
        (c, Lanza (ValueError msg_usuario_vacio))
      else if negb (Py.truthy pwd) then
        (c, Lanza (ValueError msg_contrasena_vacia))
      else
        match Mongo.find_one (por_username usr) us with
        | Some _ => (c, Lanza (ValueError (msg_usuario_existe usr)))
        | None =>
            let doc :=
              {| username := usr; password := pwd; creado_por := por |} in
            (Some (Mongo.insert_one doc us), Retorna doc)
        end
  end.

(** [validar_login]: the document found, or [None]. *)
Definition validar_login (c : option (list usuario)) (usr pwd : string)
    : resultado (option usuario) :=
  match c with
  | None => Lanza (RuntimeError msg_sin_conexion_usuarios)
  | Some us => Retorna (Mongo.find_one (por_credenciales usr pwd) us)
  end.

(** The dialog that [intentar_login] ends with. *)
Inductive dialogo_login : Type :=
| CamposVacios
| ErrorAlValidar (e : excepcion)
| Bienvenido (usr : string)
| AccesoDenegado.

(** [intentar_login] on the texts of the two fields: the new value of
    the global [usuario_actual] and the dialog shown. *)
Definition intentar_login (c : option (list usuario))
    (usuario_actual : option string) (entry_usuario entry_contrasena : string)
    : option string * dialogo_login :=
  let usr := Py.strip entry_usuario in
  let contrasena := Py.strip entry_contrasena in
  if negb (Py.truthy usr) || negb (Py.truthy contrasena) then
    (usuario_actual, CamposVacios)
  else
    match validar_login c usr contrasena with
    | Lanza e => (usuario_actual, ErrorAlValidar e)
    | Retorna (Some user_doc) =>
        (Some (username user_doc), Bienvenido (username user_doc))
    | Retorna None => (usuario_actual, AccesoDenegado)
    end.

(** The dialog that [boton_registrar_usuario] ends with. *)
Inductive dialogo_registro : Type :=
| NoAutenticado
| CamposVaciosRegistro
| UsuarioCreado (nuevo por : string)
| DatosInvalidos (m : mensaje)
| ErrorAlCrear (m : mensaje).

(** [boton_registrar_usuario] on the texts of the two fields: the
    collection afterwards and the dialog shown. *)
Definition boton_registrar_usuario (c : option (list usuario))
    (usuario_actual : option string)
    (entry_nuevo_usuario entry_nueva_contrasena : string)
    : option (list usuario) * dialogo_registro :=
  match usuario_actual with
  | None => (c, NoAutenticado)
  | Some actual =>
      let nuevo_user := Py.strip entry_nuevo_usuario in
      let nueva_pass := Py.strip entry_nueva_contrasena in
      if negb (Py.truthy nuevo_user) || negb (Py.truthy nueva_pass) then
        (c, CamposVaciosRegistro)
      else
        match crear_usuario c nuevo_user nueva_pass (Some actual) with
        | (c', Retorna _) => (c', UsuarioCreado nuevo_user actual)
        | (c', Lanza (ValueError m)) => (c', DatosInvalidos m)
        | (c', Lanza (RuntimeError m)) => (c', ErrorAlCrear m)
        end
  end.

End Usuarios.

(* ================================================================== *)
(** ** Measures on the state *)

(** The exception a result carries, if any. *)
Definition excepcion_de {A : Type} (r : resultado A) : option excepcion :=
  match r with
  | Lanza e => Some e
  | Retorna _ => None
  end.

(** The exception a call raises in a state, if any. *)
Definition falla (m : mundo) (c : llamada) : option excepcion :=
  match c with
  | Add id nom cat pre cant prov =>
      excepcion_de (snd (agregar_producto m id nom cat pre cant prov))
  | Update id nd => excepcion_de (snd (modificar_producto m id nd))
  | Remove id => excepcion_de (snd (eliminar_producto m id))
  | Execute e id q u => excepcion_de (snd (realizar_venta e m id q u))
  end.

(** The units in stock over the whole catalog. *)
Definition stock_total (ps : list producto) : Z :=
  fold_right (fun p acc => cantidad p + acc) 0 ps.

(** The units sold according to the sale records. *)
Definition vendido_total (vs : list venta) : Z :=
  fold_right (fun v acc => v_cantidad v + acc) 0 vs.

(** No two products of the catalog have the same identifier. *)
Definition ids_unicos (m : mundo) : Prop :=
  forall ps, coleccion_productos m = Some ps -> NoDup (map id_producto ps).

(** A call that leaves identifiers alone: an [Update] whose data has no
    key [id_producto]. *)
Definition conserva_ids (c : llamada) : Prop :=
  match c with
  | Update _ nd => c_id_producto nd = None
  | _ => True
  end.

(** No two accounts have the same user name. *)
Definition usernames_unicos (us : list Usuarios.usuario) : Prop :=
  NoDup (map Usuarios.username us).

(** An integer that the store can hold: 64 bits, signed. *)
Definition cabe_int64 (z : Z) : Prop := - 2 ^ 63 <= z < 2 ^ 63.

(** Data that [update_one] accepts for [$set]: some key is there, and
    the integers fit the store. *)
Definition cambios_admitidos (nd : cambios) : Prop :=
  (c_id_producto nd <> None \/ c_nombre nd <> None \/ c_categoria nd <> None
   \/ c_precio nd <> None \/ c_cantidad nd <> None
   \/ c_proveedor nd <> None)
  /\ (forall i, c_id_producto nd = Some i -> cabe_int64 i)
  /\ (forall n, c_cantidad nd = Some n -> cabe_int64 n).

(** The call is a sale. *)
Definition es_venta (c : llamada) : Prop :=
  match c with
  | Execute _ _ _ _ => True
  | _ => False
  end.

(** One call of [crear_usuario]: user name, password, creator. *)
Definition alta : Type := (string * string * option string)%type.

(** The collection after a series of calls of [crear_usuario], those
    that raise included. *)
Definition registrar_todos (c : option (list Usuarios.usuario))
    (altas : list alta) : option (list Usuarios.usuario) :=
  fold_left
    (fun c a => fst (Usuarios.crear_usuario c (fst (fst a)) (snd (fst a))
                       (snd a)))
    altas c.

(** The time of day of a [datetime] is one of a day. *)
Definition hora_valida (d : Py.datetime) : Prop :=
  0 <= Py.hour d <= 23 /\ 0 <= Py.minute d <= 59
  /\ 0 <= Py.second d <= 59 /\ 0 <= Py.microsecond d <= 999999.

(** A text made of white space only. *)
Definition solo_espacios (s : string) : Prop :=
  forallb Py.es_espacio (list_ascii_of_string s) = true.

(* ================================================================== *)
(** ** Proof steps *)

(** Closes a branch that ends in a [raise]: the message is the one of
    the branch. *)
Ltac rechazado := eexists; split; reflexivity.

(** Closes a branch that leaves the state as it was. *)
Ltac igual Hps Hm := simpl; rewrite ?Hps; exact Hm.

(* ================================================================== *)
(** ** The store: lemmas *)

Section ColeccionLemas.
Context {doc : Type}.
Variable filtro : doc -> bool.

Lemma find_one_partes (c : list doc) (d : doc) :
  Mongo.find_one filtro c = Some d ->
  exists antes despues,
    c = antes ++ d :: despues
    /\ Mongo.find_one filtro antes = None
    /\ filtro d = true.
Proof.
  induction c as [|x c IH]; simpl; [discriminate|].
  destruct (filtro x) eqn:Hx; intros H.
  - injection H as ->. exists [], c. simpl. auto.
  - destruct (IH H) as (antes & despues & -> & Hn & Hd).
    exists (x :: antes), despues. simpl. rewrite Hx. auto.
Qed.

Lemma find_one_app (antes despues : list doc) (d : doc) :
  Mongo.find_one filtro antes = None ->
  filtro d = true ->
  Mongo.find_one filtro (antes ++ d :: despues) = Some d.
Proof.
  induction antes as [|x antes IH]; simpl; intros Hn Hd.
  - now rewrite Hd.
  - destruct (filtro x); [discriminate|]. auto.
Qed.

Lemma update_one_app (cambio : doc -> doc) (antes despues : list doc)
    (d : doc) :
  Mongo.find_one filtro antes = None ->
  filtro d = true ->
  Mongo.update_one filtro cambio (antes ++ d :: despues)
  = (antes ++ cambio d :: despues, 1).
Proof.
  induction antes as [|x antes IH]; simpl; intros Hn Hd.
  - now rewrite Hd.
  - destruct (filtro x); [discriminate|]. now rewrite IH.
Qed.

Lemma find_one_In (c : list doc) (d : doc) :
  In d c -> filtro d = true -> Mongo.find_one filtro c <> None.
Proof.
  induction c as [|x c IH]; simpl; [tauto|].
  intros [->|Hin] Hd.
  - now rewrite Hd.
  - destruct (filtro x); [discriminate|]. auto.
Qed.

Lemma update_one_Forall (P : doc -> Prop) (cambio : doc -> doc)
    (c : list doc) :
  (forall d, P d -> P (cambio d)) ->
  Forall P c ->
  Forall P (fst (Mongo.update_one filtro cambio c)).
Proof.
  intros Hc. induction 1 as [|x c Hx Hall IH]; simpl; [constructor|].
  destruct (filtro x).
  - simpl. constructor; auto.
  - destruct (Mongo.update_one filtro cambio c) as [r n]. simpl in *.
    constructor; auto.
Qed.

Lemma delete_one_Forall (P : doc -> Prop) (c : list doc) :
  Forall P c -> Forall P (fst (Mongo.delete_one filtro c)).
Proof.
  induction 1 as [|x c Hx Hall IH]; simpl; [constructor|].
  destruct (filtro x); [assumption|].
  destruct (Mongo.delete_one filtro c) as [r n]. simpl in *.
  constructor; auto.
Qed.
End ColeccionLemas.

(* ================================================================== *)
(** ** Sales *)

Lemma set_solo_cantidad (p : producto) (n : Z) :
  set_campos (solo_cantidad n) p = Spec.con_cantidad p n.
Proof. reflexivity. Qed.

(** The state and the result of a sale that passes the three checks. *)
Lemma realizar_venta_pasa (e : entorno) (m : mundo) (ps : list producto)
    (prod : producto) (id q : Z) (usuario : option string)
    (antes despues : list producto) :
  coleccion_productos m = Some ps ->
  ps = antes ++ prod :: despues ->
  Mongo.find_one (por_id id) antes = None ->
  por_id id prod = true ->
  0 < q <= cantidad prod ->
  let m' := fst (realizar_venta e m id q usuario) in
  snd (realizar_venta e m id q usuario)
  = Retorna (Py.mul_int_float q (precio prod))
  /\ coleccion_productos m'
     = Some (antes ++ Spec.con_cantidad prod (cantidad prod - q) :: despues).
Proof.
  intros Hm -> Hantes Hprod Hq. unfold realizar_venta.
  rewrite Hm, find_one_app by assumption.
  destruct (q <=? 0) eqn:H0; [lia|].
  destruct (cantidad prod <? q) eqn:H1; [lia|].
  rewrite update_one_app by assumption. simpl.
  destruct (coleccion_ventas m); [destruct (insert_one_lanza e)|]; simpl; auto.
Qed.

(** C1. For a product found with quantity Q and price P and a quantity
    sold q with 0 < q <= Q, [realizar_venta] returns q * P, with P the
    price read before the write, and the catalog afterwards is the one
    before with that product's quantity replaced by Q - q. *)
Theorem C1_venta_descuenta_y_cobra (e : entorno) (m : mundo)
    (ps : list producto) (prod : producto) (id q : Z)
    (usuario : option string) :
  coleccion_productos m = Some ps ->
  Mongo.find_one (por_id id) ps = Some prod ->
  0 < q <= cantidad prod ->
  exists antes despues,
    ps = antes ++ prod :: despues
    /\ Mongo.find_one (por_id id) antes = None
    /\ snd (realizar_venta e m id q usuario)
       = Retorna (Py.mul_int_float q (precio prod))
    /\ coleccion_productos (fst (realizar_venta e m id q usuario))
       = Some (antes ++ Spec.con_cantidad prod (cantidad prod - q)
                 :: despues).
Proof.
  intros Hm Hf Hq.
  destruct (find_one_partes _ _ _ Hf) as (antes & despues & Hps & Hn & Hd).
  exists antes, despues.
  destruct (realizar_venta_pasa e m ps prod id q usuario antes despues
              Hm Hps Hn Hd Hq) as [Hr Hc].
  auto.
Qed.

Lemma C1_witness :
  exists antes despues,
    [Ejemplos.teclado; Ejemplos.mouse] = antes ++ Ejemplos.mouse :: despues
    /\ Mongo.find_one (por_id 1) antes = None
    /\ snd (realizar_venta Ejemplos.red_bien Ejemplos.tienda 1 2
              (Some "alice"%string))
       = Retorna (Py.mul_int_float 2 (precio Ejemplos.mouse))
    /\ coleccion_productos
         (fst (realizar_venta Ejemplos.red_bien Ejemplos.tienda 1 2
                 (Some "alice"%string)))
       = Some (antes ++ Spec.con_cantidad Ejemplos.mouse
                          (cantidad Ejemplos.mouse - 2) :: despues).
Proof.
  apply (C1_venta_descuenta_y_cobra Ejemplos.red_bien Ejemplos.tienda
           [Ejemplos.teclado; Ejemplos.mouse] Ejemplos.mouse 1 2
           (Some "alice"%string)).
  - reflexivity.
  - reflexivity.
  - simpl. lia.
Defined.

(** The state and the result of a sale that asks for more than the
    stock. *)
Lemma realizar_venta_rechaza (e : entorno) (m : mundo) (ps : list producto)
    (prod : producto) (id q : Z) (usuario : option string) :
  coleccion_productos m = Some ps ->
  Mongo.find_one (por_id id) ps = Some prod ->
  cantidad prod < q ->
  realizar_venta e m id q usuario
  = (m, Lanza (ValueError (if q <=? 0 then msg_cantidad_vendida
                           else msg_sin_stock))).
Proof.
  intros Hm Hf Hq. unfold realizar_venta. rewrite Hm, Hf.
  destruct (q <=? 0); [reflexivity|].
  destruct (cantidad prod <? q) eqn:H1; [reflexivity|lia].
Qed.

(** C2, as stated, fails: after the quantity of a product has been
    modified to -5, selling -1 of it (more than the stock) is refused for
    the quantity sold, not for the stock. *)
Lemma C2_counterexample :
  coleccion_productos Ejemplos.tienda_en_negativo
  = Some [Spec.con_cantidad Ejemplos.mouse (-5)]
  /\ -1 > cantidad (Spec.con_cantidad Ejemplos.mouse (-5))
  /\ realizar_venta Ejemplos.red_bien Ejemplos.tienda_en_negativo 1 (-1) None
     = (Ejemplos.tienda_en_negativo, Lanza (ValueError msg_cantidad_vendida))
  /\ Spec.clasifica (ValueError msg_cantidad_vendida)
     <> Spec.InsufficientStockError.
Proof.
  repeat split; try reflexivity. discriminate.
Qed.

(** C2, amended. For a product found with quantity Q and a quantity sold
    q > Q, [realizar_venta] raises and leaves the whole state as it was
    (no write to the products, no sale record); the error is
    InsufficientStockError when q > 0, which is always so when Q >= 0, and
    ValidationError when q <= 0. *)
Theorem C2_sin_stock_no_cambia (e : entorno) (m : mundo)
    (ps : list producto) (prod : producto) (id q : Z)
    (usuario : option string) :
  coleccion_productos m = Some ps ->
  Mongo.find_one (por_id id) ps = Some prod ->
  q > cantidad prod ->
  fst (realizar_venta e m id q usuario) = m
  /\ exists ex,
       snd (realizar_venta e m id q usuario) = Lanza ex
       /\ (0 < q -> Spec.clasifica ex = Spec.InsufficientStockError)
       /\ (0 <= cantidad prod ->
           Spec.clasifica ex = Spec.InsufficientStockError)
       /\ (q <= 0 -> Spec.clasifica ex = Spec.ValidationError).
Proof.
  intros Hm Hf Hq.
  rewrite (realizar_venta_rechaza e m ps prod id q usuario Hm Hf) by lia.
  split; [reflexivity|]. eexists. split; [reflexivity|].
  destruct (q <=? 0) eqn:H0; repeat split; intros; try reflexivity; lia.
Qed.

Lemma C2_witness :
  fst (realizar_venta Ejemplos.red_bien Ejemplos.tienda 1 5 None)
  = Ejemplos.tienda
  /\ exists ex,
       snd (realizar_venta Ejemplos.red_bien Ejemplos.tienda 1 5 None)
       = Lanza ex
       /\ (0 < 5 -> Spec.clasifica ex = Spec.InsufficientStockError)
       /\ (0 <= cantidad Ejemplos.mouse ->
           Spec.clasifica ex = Spec.InsufficientStockError)
       /\ (5 <= 0 -> Spec.clasifica ex = Spec.ValidationError).
Proof.
  apply (C2_sin_stock_no_cambia Ejemplos.red_bien Ejemplos.tienda
           [Ejemplos.teclado; Ejemplos.mouse] Ejemplos.mouse 1 5 None).
  - reflexivity.
  - reflexivity.
  - simpl. lia.
Defined.

(** C4. When the sale has passed the checks and the decrement is
    written, an insertion of the sale record that raises is caught: the
    call still returns q * P, the product keeps the decremented quantity,
    the sales collection is as before, and the error is printed. *)
Theorem C4_fallo_del_registro_no_revierte (e : entorno) (m : mundo)
    (ps : list producto) (vs : list venta) (prod : producto) (id q : Z)
    (usuario : option string) (err : string) :
  coleccion_productos m = Some ps ->
  coleccion_ventas m = Some vs ->
  Mongo.find_one (por_id id) ps = Some prod ->
  0 < q <= cantidad prod ->
  insert_one_lanza e = Some err ->
  snd (realizar_venta e m id q usuario)
  = Retorna (Py.mul_int_float q (precio prod))
  /\ (exists antes despues,
        ps = antes ++ prod :: despues
        /\ Mongo.find_one (por_id id) antes = None
        /\ coleccion_productos (fst (realizar_venta e m id q usuario))
           = Some (antes ++ Spec.con_cantidad prod (cantidad prod - q)
                     :: despues))
  /\ coleccion_ventas (fst (realizar_venta e m id q usuario)) = Some vs
  /\ salida (fst (realizar_venta e m id q usuario))
     = salida m ++ [("Error registrando venta: " ++ err)%string].
Proof.
  intros Hm Hv Hf Hq He.
  destruct (find_one_partes _ _ _ Hf) as (antes & despues & Hps & Hn & Hd).
  destruct (realizar_venta_pasa e m ps prod id q usuario antes despues
              Hm Hps Hn Hd Hq) as [Hr Hc].
  split; [exact Hr|]. split; [exists antes, despues; auto|].
  unfold realizar_venta. rewrite Hm, Hf.
  destruct (q <=? 0) eqn:H0; [lia|].
  destruct (cantidad prod <? q) eqn:H1; [lia|].
  simpl. rewrite Hv, He. simpl. auto.
Qed.

Lemma C4_witness :
  snd (realizar_venta Ejemplos.red_caida Ejemplos.tienda 1 2 None)
  = Retorna (Py.mul_int_float 2 (precio Ejemplos.mouse))
  /\ (exists antes despues,
        [Ejemplos.teclado; Ejemplos.mouse]
        = antes ++ Ejemplos.mouse :: despues
        /\ Mongo.find_one (por_id 1) antes = None
        /\ coleccion_productos
             (fst (realizar_venta Ejemplos.red_caida Ejemplos.tienda 1 2
                     None))
           = Some (antes ++ Spec.con_cantidad Ejemplos.mouse
                              (cantidad Ejemplos.mouse - 2) :: despues))
  /\ coleccion_ventas
       (fst (realizar_venta Ejemplos.red_caida Ejemplos.tienda 1 2 None))
     = Some []
  /\ salida (fst (realizar_venta Ejemplos.red_caida Ejemplos.tienda 1 2 None))
     = salida Ejemplos.tienda
       ++ [("Error registrando venta: " ++ "connection closed")%string].
Proof.
  apply (C4_fallo_del_registro_no_revierte Ejemplos.red_caida Ejemplos.tienda
           [Ejemplos.teclado; Ejemplos.mouse] [] Ejemplos.mouse 1 2 None
           "connection closed"%string).
  - reflexivity.
  - reflexivity.
  - reflexivity.
  - simpl. lia.
  - reflexivity.
Defined.

(* ================================================================== *)
(** ** Adding a product *)

Lemma truthy_false (s : string) : Py.truthy s = false <-> s = EmptyString.
Proof. destruct s; simpl; split; congruence. Qed.

Lemma en_categorias (cat : string) :
  existsb (String.eqb cat) CATEGORIAS = true <-> In cat CATEGORIAS.
Proof.
  rewrite existsb_exists. split.
  - intros (x & Hin & Heq). apply String.eqb_eq in Heq. now subst.
  - intros Hin. exists cat. split; [assumption|apply String.eqb_refl].
Qed.

(** With a field constraint violated, [agregar_producto] raises a
    validation error without looking at the documents. *)
Lemma agregar_producto_invalido (m : mundo) (ps : list producto) (id : Z)
    (nom cat : string) (pre : float) (cant : Z) (prov : string) :
  coleccion_productos m = Some ps ->
  Spec.viola_restriccion nom cat pre cant prov ->
  exists msg,
    agregar_producto m id nom cat pre cant prov = (m, Lanza (ValueError msg))
    /\ Spec.clasifica (ValueError msg) = Spec.ValidationError.
Proof.
  intros Hm Hv. unfold agregar_producto. rewrite Hm.
  destruct (Py.truthy nom) eqn:Hnom; cbn [negb]; [|rechazado].
  destruct (existsb (String.eqb cat) CATEGORIAS) eqn:Hcat; cbn [negb];
    [|rechazado].
  destruct (pre <? 0)%float eqn:Hpre; [rechazado|].
  destruct (cant <? 0) eqn:Hcant; [rechazado|].
  destruct (Py.truthy prov) eqn:Hprov; cbn [negb]; [|rechazado].
  exfalso. destruct Hv as [H|[H|[H|[H|H]]]].
  - apply truthy_false in H. congruence.
  - apply H, en_categorias, Hcat.
  - congruence.
  - lia.
  - apply truthy_false in H. congruence.
Qed.

(** With every field constraint met, the outcome depends on the lookup
    of the identifier alone. *)
Lemma agregar_producto_valido (m : mundo) (ps : list producto) (id : Z)
    (nom cat : string) (pre : float) (cant : Z) (prov : string) :
  coleccion_productos m = Some ps ->
  ~ Spec.viola_restriccion nom cat pre cant prov ->
  agregar_producto m id nom cat pre cant prov
  = match Mongo.find_one (por_id id) ps with
    | Some _ => (m, Lanza (ValueError (msg_ya_existe id)))
    | None =>
        (con_productos m
           (ps ++ [mk_producto id nom cat pre cant prov]),
         Retorna (mk_producto id nom cat pre cant prov))
    end.
Proof.
  intros Hm Hv. unfold agregar_producto, Spec.viola_restriccion in *.
  rewrite Hm.
  destruct (Py.truthy nom) eqn:Hnom; cbn [negb];
    [|apply truthy_false in Hnom; tauto].
  destruct (existsb (String.eqb cat) CATEGORIAS) eqn:Hcat; cbn [negb].
  2:{ exfalso. apply Hv. right. left. intros Hin.
      apply en_categorias in Hin. congruence. }
  destruct (pre <? 0)%float eqn:Hpre; [tauto|].
  destruct (cant <? 0) eqn:Hcant; [exfalso; apply Hv; do 3 right; left; lia|].
  destruct (Py.truthy prov) eqn:Hprov; cbn [negb];
    [|apply truthy_false in Hprov; tauto].
  reflexivity.
Qed.

(** Whether a field constraint is violated can be decided. *)
Lemma viola_restriccion_dec (nom cat : string) (pre : float) (cant : Z)
    (prov : string) :
  Spec.viola_restriccion nom cat pre cant prov
  \/ ~ Spec.viola_restriccion nom cat pre cant prov.
Proof.
  unfold Spec.viola_restriccion.
  destruct (string_dec nom EmptyString) as [?|Hn]; [tauto|].
  destruct (in_dec string_dec cat CATEGORIAS) as [Hc|?]; [|tauto].
  destruct (pre <? 0)%float; [tauto|].
  destruct (Z_lt_dec cant 0) as [?|Hz]; [tauto|].
  destruct (string_dec prov EmptyString) as [?|Hp]; [tauto|].
  right. intros [H|[H|[H|[H|H]]]]; try tauto. discriminate.
Qed.

(** C5, as stated, fails: with product 1 in the catalog, adding a
    product 1 whose name is empty raises the validation error of the name,
    not the conflict. *)
Lemma C5_counterexample :
  Mongo.find_one (por_id 1) [Ejemplos.teclado; Ejemplos.mouse]
  = Some Ejemplos.mouse
  /\ agregar_producto Ejemplos.tienda 1 "" "Accesorios" 10%float 3 "Acme"
     = (Ejemplos.tienda, Lanza (ValueError msg_nombre_vacio))
  /\ Spec.clasifica (ValueError msg_nombre_vacio) <> Spec.ConflictError.
Proof.
  repeat split; try reflexivity. discriminate.
Qed.

(** C5, amended. When the catalog holds a product with identifier id,
    [agregar_producto] called with that id always raises and leaves the
    whole state as it was; the error is ConflictError when the fields meet
    every constraint, and ValidationError when one is violated. *)
Theorem C5_id_duplicado (m : mundo) (ps : list producto) (p : producto)
    (id : Z) (nom cat : string) (pre : float) (cant : Z) (prov : string) :
  coleccion_productos m = Some ps ->
  In p ps ->
  id_producto p = id ->
  exists ex,
    agregar_producto m id nom cat pre cant prov = (m, Lanza ex)
    /\ (~ Spec.viola_restriccion nom cat pre cant prov ->
        ex = ValueError (msg_ya_existe id)
        /\ Spec.clasifica ex = Spec.ConflictError)
    /\ (Spec.viola_restriccion nom cat pre cant prov ->
        Spec.clasifica ex = Spec.ValidationError).
Proof.
  intros Hm Hin Hid.
  destruct (viola_restriccion_dec nom cat pre cant prov) as [Hv|Hv].
  - destruct (agregar_producto_invalido m ps id nom cat pre cant prov Hm Hv)
      as (msg & Hr & Hc).
    exists (ValueError msg). split; [exact Hr|]. split; tauto.
  - rewrite (agregar_producto_valido m ps id nom cat pre cant prov Hm Hv).
    destruct (Mongo.find_one (por_id id) ps) eqn:Hf.
    + eexists. split; [reflexivity|]. split; [auto|tauto].
    + exfalso. apply (find_one_In (por_id id) ps p Hin); [|exact Hf].
      unfold por_id. lia.
Qed.

Lemma C5_witness :
  exists ex,
    agregar_producto Ejemplos.tienda 1 "Raton" "Accesorios" 12%float 4 "Otro"
    = (Ejemplos.tienda, Lanza ex)
    /\ (~ Spec.viola_restriccion "Raton" "Accesorios" 12%float 4 "Otro" ->
        ex = ValueError (msg_ya_existe 1)
        /\ Spec.clasifica ex = Spec.ConflictError)
    /\ (Spec.viola_restriccion "Raton" "Accesorios" 12%float 4 "Otro" ->
        Spec.clasifica ex = Spec.ValidationError).
Proof.
  apply (C5_id_duplicado Ejemplos.tienda [Ejemplos.teclado; Ejemplos.mouse]
           Ejemplos.mouse 1 "Raton" "Accesorios" 12%float 4 "Otro").
  - reflexivity.
  - simpl. auto.
  - reflexivity.
Defined.

(** C10. [agregar_producto] checks the fields before it looks the
    identifier up: an input that violates a field constraint gets the
    validation error whatever the catalog holds, a product with the same
    id included, and the conflict error is raised only when no field
    constraint is violated (and a product with that id is there). *)
Theorem C10_validacion_antes_del_duplicado (m : mundo) (ps : list producto)
    (id : Z) (nom cat : string) (pre : float) (cant : Z) (prov : string) :
  coleccion_productos m = Some ps ->
  (Spec.viola_restriccion nom cat pre cant prov ->
   exists msg,
     agregar_producto m id nom cat pre cant prov
     = (m, Lanza (ValueError msg))
     /\ Spec.clasifica (ValueError msg) = Spec.ValidationError)
  /\ (forall ex,
        snd (agregar_producto m id nom cat pre cant prov) = Lanza ex ->
        Spec.clasifica ex = Spec.ConflictError ->
        ~ Spec.viola_restriccion nom cat pre cant prov
        /\ Mongo.find_one (por_id id) ps <> None).
Proof.
  intros Hm. split.
  - apply (agregar_producto_invalido m ps). exact Hm.
  - intros ex Hr Hc.
    destruct (viola_restriccion_dec nom cat pre cant prov) as [Hv|Hv].
    + destruct (agregar_producto_invalido m ps id nom cat pre cant prov Hm Hv)
        as (msg & Hr' & Hc').
      rewrite Hr' in Hr. simpl in Hr. injection Hr as <-. congruence.
    + split; [exact Hv|].
      rewrite (agregar_producto_valido m ps id nom cat pre cant prov Hm Hv)
        in Hr.
      destruct (Mongo.find_one (por_id id) ps); [discriminate|].
      simpl in Hr. discriminate.
Qed.

Lemma C10_witness :
  (Spec.viola_restriccion "Raton" "Accesorios" (-1)%float 4 "Otro" ->
   exists msg,
     agregar_producto Ejemplos.tienda 1 "Raton" "Accesorios" (-1)%float 4
       "Otro"
     = (Ejemplos.tienda, Lanza (ValueError msg))
     /\ Spec.clasifica (ValueError msg) = Spec.ValidationError)
  /\ (forall ex,
        snd (agregar_producto Ejemplos.tienda 1 "Raton" "Accesorios"
               (-1)%float 4 "Otro") = Lanza ex ->
        Spec.clasifica ex = Spec.ConflictError ->
        ~ Spec.viola_restriccion "Raton" "Accesorios" (-1)%float 4 "Otro"
        /\ Mongo.find_one (por_id 1) [Ejemplos.teclado; Ejemplos.mouse]
           <> None).
Proof.
  apply (C10_validacion_antes_del_duplicado Ejemplos.tienda
           [Ejemplos.teclado; Ejemplos.mouse] 1 "Raton" "Accesorios"
           (-1)%float 4 "Otro").
  reflexivity.
Defined.

(* ================================================================== *)
(** ** The report *)

Lemma find_todos {doc : Type} (c : list doc) :
  Mongo.find (fun _ => true) c = c.
Proof.
  unfold Mongo.find. induction c as [|d c IH]; simpl; congruence.
Qed.

Lemma paso_reporte_par (bajo_stock : list producto) (valor_total : float)
    (p : producto) :
  paso_reporte (bajo_stock, valor_total) p
  = (if cantidad p <? 5 then bajo_stock ++ [p] else bajo_stock,
     (valor_total + Py.mul_int_float (cantidad p) (precio p))%float).
Proof.
  unfold paso_reporte, STOCK_MINIMO. now destruct (cantidad p <? 5).
Qed.

(** The loop of [generar_reporte], from any value of its two
    variables. *)
Lemma bucle_reporte (ps : list producto) (bajo_stock : list producto)
    (valor_total : float) :
  fold_left paso_reporte ps (bajo_stock, valor_total)
  = (bajo_stock ++ filter (fun p => cantidad p <? 5) ps,
     fold_left
       (fun acc p => (acc + Py.mul_int_float (cantidad p) (precio p))%float)
       ps valor_total).
Proof.
  revert bajo_stock valor_total.
  induction ps as [|p ps IH]; intros bajo_stock valor_total;
    cbn [fold_left filter].
  - now rewrite app_nil_r.
  - rewrite paso_reporte_par, IH.
    destruct (cantidad p <? 5); [|reflexivity].
    now rewrite <- app_assoc.
Qed.

(** C7. [generar_reporte] reads the catalog once and returns both
    reports from that one list of records: the products of the list whose
    quantity is strictly below 5, and the sum of quantity * price over the
    same list. *)
Theorem C7_reporte_de_una_lectura (m : mundo) (ps : list producto) :
  coleccion_productos m = Some ps ->
  generar_reporte m
  = Retorna (filter (fun p => cantidad p <? 5) ps, Spec.suma_valores ps).
Proof.
  intros Hm. unfold generar_reporte. rewrite Hm, find_todos, bucle_reporte.
  reflexivity.
Qed.

Lemma C7_witness :
  generar_reporte Ejemplos.tienda
  = Retorna (filter (fun p => cantidad p <? 5)
               [Ejemplos.teclado; Ejemplos.mouse],
             Spec.suma_valores [Ejemplos.teclado; Ejemplos.mouse]).
Proof.
  apply (C7_reporte_de_una_lectura Ejemplos.tienda
           [Ejemplos.teclado; Ejemplos.mouse]).
  reflexivity.
Defined.

(* ================================================================== *)
(** ** Sale records *)

(** No call rewrites a sale record: the sales collection after a call is
    the one before it, followed by at most one new record whose total is
    the product of its own quantity and unit price. *)
Lemma ventas_tras_llamada (m : mundo) (vs : list venta) (c : llamada) :
  coleccion_ventas m = Some vs ->
  exists nuevas,
    coleccion_ventas (ejecutar m c) = Some (vs ++ nuevas)
    /\ Forall Spec.total_coherente nuevas.
Proof.
  intros Hv.
  assert (Hnada : coleccion_ventas m = Some (vs ++ [])
                  /\ Forall Spec.total_coherente [])
    by (rewrite app_nil_r; auto).
  destruct c as [id nom cat pre cant prov|id nd|id|e id q u]; simpl.
  - exists []. unfold agregar_producto.
    destruct (coleccion_productos m); [|exact Hnada].
    destruct (negb (Py.truthy nom)); [exact Hnada|].
    destruct (negb (existsb (String.eqb cat) CATEGORIAS)); [exact Hnada|].
    destruct (pre <? 0)%float; [exact Hnada|].
    destruct (cant <? 0); [exact Hnada|].
    destruct (negb (Py.truthy prov)); [exact Hnada|].
    destruct (Mongo.find_one (por_id id) l); exact Hnada.
  - exists []. unfold modificar_producto.
    destruct (coleccion_productos m); [|exact Hnada].
    destruct (Mongo.update_one (por_id id) (set_campos nd) l). exact Hnada.
  - exists []. unfold eliminar_producto.
    destruct (coleccion_productos m); [|exact Hnada].
    destruct (Mongo.delete_one (por_id id) l). exact Hnada.
  - unfold realizar_venta.
    destruct (coleccion_productos m); [|exists []; exact Hnada].
    destruct (Mongo.find_one (por_id id) l); [|exists []; exact Hnada].
    destruct (q <=? 0); [exists []; exact Hnada|].
    destruct (cantidad p <? q); [exists []; exact Hnada|].
    simpl. rewrite Hv.
    destruct (insert_one_lanza e); simpl.
    + exists []. exact Hnada.
    + eexists. split; [reflexivity|].
      constructor; [reflexivity|constructor].
Qed.

Lemma ventas_tras_llamadas (cs : list llamada) (m : mundo)
    (vs : list venta) :
  coleccion_ventas m = Some vs ->
  exists nuevas,
    coleccion_ventas (ejecutar_todas m cs) = Some (vs ++ nuevas)
    /\ Forall Spec.total_coherente nuevas.
Proof.
  revert m vs. induction cs as [|c cs IH]; intros m vs Hv; simpl.
  - exists []. rewrite app_nil_r. auto.
  - destruct (ventas_tras_llamada m vs c Hv) as (n1 & H1 & F1).
    destruct (IH _ _ H1) as (n2 & H2 & F2).
    exists (n1 ++ n2). rewrite app_assoc. split; [exact H2|].
    apply Forall_app. auto.
Qed.

(** C9. The record that a successful sale inserts holds the quantity
    sold, the price of the product as read before the decrement, and the
    product of the two as its total; after any further calls that very
    record is still in the collection, unchanged, and every record added
    since satisfies total = quantity * unit price as well. *)
Theorem C9_total_congelado (e : entorno) (m : mundo) (ps : list producto)
    (vs : list venta) (prod : producto) (id q : Z) (usuario : option string)
    (cs : list llamada) :
  coleccion_productos m = Some ps ->
  coleccion_ventas m = Some vs ->
  Mongo.find_one (por_id id) ps = Some prod ->
  0 < q <= cantidad prod ->
  insert_one_lanza e = None ->
  exists v nuevas,
    coleccion_ventas (fst (realizar_venta e m id q usuario))
    = Some (vs ++ [v])
    /\ v_cantidad v = q
    /\ v_precio_unitario v = precio prod
    /\ v_total v = Py.mul_int_float (v_cantidad v) (v_precio_unitario v)
    /\ coleccion_ventas
         (ejecutar_todas (fst (realizar_venta e m id q usuario)) cs)
       = Some (vs ++ v :: nuevas)
    /\ Forall Spec.total_coherente nuevas.
Proof.
  intros Hm Hv Hf Hq He.
  assert (H1 : exists v,
             coleccion_ventas (fst (realizar_venta e m id q usuario))
             = Some (vs ++ [v])
             /\ v_cantidad v = q
             /\ v_precio_unitario v = precio prod
             /\ v_total v
                = Py.mul_int_float (v_cantidad v) (v_precio_unitario v)).
  { unfold realizar_venta. rewrite Hm, Hf.
    destruct (q <=? 0) eqn:H0; [lia|].
    destruct (cantidad prod <? q) eqn:H2; [lia|].
    simpl. rewrite Hv, He. simpl. eexists. split; [reflexivity|].
    simpl. auto. }
  destruct H1 as (v & Hv1 & Hc & Hp & Ht).
  destruct (ventas_tras_llamadas cs _ _ Hv1) as (nuevas & Hv2 & Hall).
  exists v, nuevas. rewrite <- app_assoc in Hv2. simpl in Hv2. auto 10.
Qed.

Lemma C9_witness :
  exists v nuevas,
    coleccion_ventas
      (fst (realizar_venta Ejemplos.red_bien Ejemplos.tienda 1 2 None))
    = Some ([] ++ [v])
    /\ v_cantidad v = 2
    /\ v_precio_unitario v = precio Ejemplos.mouse
    /\ v_total v = Py.mul_int_float (v_cantidad v) (v_precio_unitario v)
    /\ coleccion_ventas
         (ejecutar_todas
            (fst (realizar_venta Ejemplos.red_bien Ejemplos.tienda 1 2 None))
            [Update 1 (Ejemplos.solo_precio 99%float);
             Execute Ejemplos.red_bien 1 1 None])
       = Some ([] ++ v :: nuevas)
    /\ Forall Spec.total_coherente nuevas.
Proof.
  apply (C9_total_congelado Ejemplos.red_bien Ejemplos.tienda
           [Ejemplos.teclado; Ejemplos.mouse] [] Ejemplos.mouse 1 2 None
           [Update 1 (Ejemplos.solo_precio 99%float);
            Execute Ejemplos.red_bien 1 1 None]).
  - reflexivity.
  - reflexivity.
  - reflexivity.
  - simpl. lia.
  - reflexivity.
Defined.

(* ================================================================== *)
(** ** Quantities and prices below zero *)

Lemma no_nan_SF (x : float) : is_nan x = false -> Prim2SF x <> S754_nan.
Proof.
  intros Hn H. rewrite <- (SF2Prim_Prim2SF x), H in Hn. discriminate.
Qed.

(** For a price that is a number, passing the check [precio < 0] of
    [agregar_producto] means [0 <= precio]. *)
Lemma no_menor_que_cero (x : float) :
  is_nan x = false -> (x <? 0)%float = false -> (0 <=? x)%float = true.
Proof.
  intros Hn. apply no_nan_SF in Hn.
  rewrite ltb_spec, leb_spec.
  change (Prim2SF 0) with (S754_zero false).
  destruct (Prim2SF x) as [s|s| |s mx ex]; try congruence;
    destruct s; cbv; congruence.
Qed.

Lemma set_campos_no_negativo (nd : cambios) (p : producto) :
  Spec.cambios_no_negativos nd ->
  Spec.no_negativo p -> Spec.no_negativo (set_campos nd p).
Proof.
  intros [Hc Hp] [Hq Hx]. unfold Spec.no_negativo, set_campos. simpl.
  split.
  - destruct (c_cantidad nd) as [n|]; auto.
  - destruct (c_precio nd) as [x|]; auto.
Qed.

Lemma no_negativo_tras_llamada (m : mundo) (c : llamada) :
  Spec.catalogo_no_negativo m ->
  Spec.llamada_admisible c ->
  Spec.catalogo_no_negativo (ejecutar m c).
Proof.
  unfold Spec.catalogo_no_negativo. intros Hm Hc.
  destruct c as [id nom cat pre cant prov|id nd|id|e id q u]; simpl in *.
  - unfold agregar_producto.
    destruct (coleccion_productos m) as [ps|] eqn:Hps; [|igual Hps Hm].
    destruct (negb (Py.truthy nom)); [igual Hps Hm|].
    destruct (negb (existsb (String.eqb cat) CATEGORIAS)); [igual Hps Hm|].
    destruct (pre <? 0)%float eqn:Hpre; [igual Hps Hm|].
    destruct (cant <? 0) eqn:Hcant; [igual Hps Hm|].
    destruct (negb (Py.truthy prov)); [igual Hps Hm|].
    destruct (Mongo.find_one (por_id id) ps); [igual Hps Hm|].
    simpl. intros ps' H. injection H as <-.
    apply Forall_app. split; [auto|].
    constructor; [|constructor]. split; simpl; [lia|].
    now apply no_menor_que_cero.
  - unfold modificar_producto.
    destruct (coleccion_productos m) as [ps|] eqn:Hps; [|igual Hps Hm].
    pose proof (update_one_Forall (por_id id) Spec.no_negativo
                  (set_campos nd) ps
                  (fun d => set_campos_no_negativo nd d Hc)
                  (Hm ps eq_refl)) as H.
    destruct (Mongo.update_one (por_id id) (set_campos nd) ps) as [r n].
    simpl in *. intros ps' H'. now injection H' as <-.
  - unfold eliminar_producto.
    destruct (coleccion_productos m) as [ps|] eqn:Hps; [|igual Hps Hm].
    pose proof (delete_one_Forall (por_id id) Spec.no_negativo ps
                  (Hm ps eq_refl)) as H.
    destruct (Mongo.delete_one (por_id id) ps) as [r n].
    simpl in *. intros ps' H'. now injection H' as <-.
  - unfold realizar_venta.
    destruct (coleccion_productos m) as [ps|] eqn:Hps; [|igual Hps Hm].
    destruct (Mongo.find_one (por_id id) ps) as [prod|]; [|igual Hps Hm].
    destruct (q <=? 0) eqn:H0; [igual Hps Hm|].
    destruct (cantidad prod <? q) eqn:H1; [igual Hps Hm|].
    assert (H : Forall Spec.no_negativo
                  (fst (Mongo.update_one (por_id id)
                          (set_campos (solo_cantidad (cantidad prod - q)))
                          ps))).
    { apply update_one_Forall; [|exact (Hm ps eq_refl)].
      intros d [_ Hx]. split; simpl; [lia|exact Hx]. }
    simpl.
    destruct (coleccion_ventas m); [destruct (insert_one_lanza e)|];
      simpl; intros ps' H'; now injection H' as <-.
Qed.

(** C3, as stated, fails, in two ways.  [modificar_producto] checks
    nothing: after a product is added and then modified, both calls
    returning normally, its quantity is -5.  And the check [precio < 0] of
    [agregar_producto] lets a price that is not a number through, for
    which [0 <= precio] is false. *)
Lemma C3_counterexample :
  (snd (agregar_producto mundo_vacio 1 "Mouse" "Accesorios" 10%float 3 "Acme")
   = Retorna Ejemplos.mouse
   /\ snd (modificar_producto
             (fst (agregar_producto mundo_vacio 1 "Mouse" "Accesorios"
                     10%float 3 "Acme"))
             1 (solo_cantidad (-5)))
      = Retorna true
   /\ coleccion_productos Ejemplos.tienda_en_negativo
      = Some [Spec.con_cantidad Ejemplos.mouse (-5)]
   /\ ~ Spec.catalogo_no_negativo Ejemplos.tienda_en_negativo)
  /\ (snd (agregar_producto mundo_vacio 1 "Mouse" "Accesorios" nan 3 "Acme")
      = Retorna (mk_producto 1 "Mouse" "Accesorios" nan 3 "Acme")
      /\ ~ Spec.catalogo_no_negativo Ejemplos.tienda_con_nan).
Proof.
  repeat split; try reflexivity.
  - intros H. specialize (H _ eq_refl).
    inversion H as [|p l [Hq _] _]; subst. simpl in Hq. lia.
  - intros H. specialize (H _ eq_refl).
    inversion H as [|p l [_ Hx] _]; subst. simpl in Hx. discriminate.
Qed.

(** C3, amended. From a catalog in which every product has
    quantity >= 0 and price >= 0, after any sequence of Add, Update,
    Remove and Execute calls in which every Update supplies only a
    quantity >= 0 and a price >= 0 and no Add supplies a price that is not
    a number, every product has quantity >= 0 and price >= 0. *)
Theorem C3_catalogo_no_negativo (m : mundo) (cs : list llamada) :
  Spec.catalogo_no_negativo m ->
  Forall Spec.llamada_admisible cs ->
  Spec.catalogo_no_negativo (ejecutar_todas m cs).
Proof.
  intros Hm Hcs. revert m Hm.
  induction Hcs as [|c cs Hc Hcs IH]; intros m Hm; simpl; [exact Hm|].
  apply IH, no_negativo_tras_llamada; assumption.
Qed.

Lemma C3_witness :
  Spec.catalogo_no_negativo
    (ejecutar_todas mundo_vacio
       [Add 1 "Mouse" "Accesorios" 10%float 3 "Acme";
        Update 1 (solo_cantidad 7);
        Execute Ejemplos.red_bien 1 2 None]).
Proof.
  apply (C3_catalogo_no_negativo mundo_vacio
           [Add 1 "Mouse" "Accesorios" 10%float 3 "Acme";
            Update 1 (solo_cantidad 7);
            Execute Ejemplos.red_bien 1 2 None]).
  - intros ps H. injection H as <-. constructor.
  - repeat constructor; simpl; intros n H; try discriminate.
    injection H as <-. lia.
Defined.

(* ================================================================== *)
(** ** Sorting *)

Section Orden.
Context {doc : Type}.
Variable le : doc -> doc -> bool.

Lemma insertar_perm (d : doc) (c : list doc) :
  Permutation (Mongo.insertar le d c) (d :: c).
Proof.
  induction c as [|x c IH]; simpl; [reflexivity|].
  destruct (le d x); [reflexivity|].
  rewrite IH. apply perm_swap.
Qed.

Lemma sort_perm (c : list doc) : Permutation (Mongo.sort le c) c.
Proof.
  induction c as [|x c IH]; simpl; [reflexivity|].
  rewrite insertar_perm. now apply perm_skip.
Qed.

Hypothesis le_total : forall a b, le a b = true \/ le b a = true.

Let R (a b : doc) : Prop := le a b = true.

Lemma insertar_HdRel (x d : doc) (c : list doc) :
  R x d -> HdRel R x c -> HdRel R x (Mongo.insertar le d c).
Proof.
  intros Hxd Hc. destruct c as [|y c]; simpl.
  - now constructor.
  - destruct (le d y); constructor; [assumption|].
    now inversion Hc.
Qed.

Lemma insertar_sorted (d : doc) (c : list doc) :
  Sorted R c -> Sorted R (Mongo.insertar le d c).
Proof.
  induction 1 as [|x c Hs IH Hhd]; simpl.
  - repeat constructor.
  - destruct (le d x) eqn:Hdx.
    + constructor; [now constructor|now constructor].
    + constructor; [exact IH|].
      apply insertar_HdRel; [|exact Hhd].
      destruct (le_total d x) as [H|H]; [congruence|exact H].
Qed.

Lemma sort_sorted (c : list doc) : Sorted R (Mongo.sort le c).
Proof.
  induction c as [|x c IH]; simpl; [constructor|].
  now apply insertar_sorted.
Qed.
End Orden.

Lemma id_asc_total (p q : producto) : id_asc p q = true \/ id_asc q p = true.
Proof. unfold id_asc. lia. Qed.

Lemma sort_id_asc (ps : list producto) :
  Sorted Z.le (map id_producto (Mongo.sort id_asc ps)).
Proof.
  pose proof (sort_sorted id_asc id_asc_total ps) as H.
  induction H as [|p l Hs IH Hhd]; simpl; constructor; [exact IH|].
  destruct Hhd as [|q l Hpq]; simpl; constructor.
  unfold id_asc in Hpq. lia.
Qed.

(* ================================================================== *)
(** ** Searching by name or supplier *)









(* ================================================================== *)
(** ** The sales history *)

Lemma lex_compare_opp (l1 l2 : list Z) :
  Py.lex_compare l2 l1 = CompOpp (Py.lex_compare l1 l2).
Proof.
  revert l2. induction l1 as [|x l1 IH]; intros [|y l2]; simpl; auto.
  rewrite (Z.compare_antisym x y).
  destruct (x ?= y); simpl; auto.
Qed.

Lemma datetime_leb_total (a b : Py.datetime) :
  Py.datetime_leb a b = true \/ Py.datetime_leb b a = true.
Proof.
  unfold Py.datetime_leb, Py.datetime_compare.
  rewrite (lex_compare_opp (Py.campos a) (Py.campos b)).
  destruct (Py.lex_compare (Py.campos a) (Py.campos b)); simpl; auto.
Qed.

Lemma fecha_desc_total (v w : venta) :
  fecha_desc v w = true \/ fecha_desc w v = true.
Proof. apply datetime_leb_total. Qed.

Lemma cumple_en_filtro (usuario : option string)
    (desde hasta : option Py.datetime) (v : venta) :
  cumple {| f_usuario :=
              if Py.truthy_opt usuario then usuario else None;
            f_gte := desde; f_lte := hasta |} v = true
  <-> Spec.en_filtro usuario desde hasta v.
Proof.
  unfold cumple, Spec.en_filtro. simpl.
  rewrite !andb_true_iff. split.
  - intros [[Hu Hd] Hh]. repeat split.
    + intros u -> Hne. simpl in Hu.
      destruct u as [|c u]; [congruence|]. simpl in Hu.
      destruct (v_usuario v) as [w|]; [|discriminate].
      apply String.eqb_eq in Hu. now subst.
    + intros d ->. exact Hd.
    + intros d ->. exact Hh.
  - intros (Hu & Hd & Hh). repeat split.
    + destruct usuario as [[|c u]|]; simpl; auto.
      rewrite (Hu _ eq_refl) by discriminate. apply String.eqb_refl.
    + destruct desde; auto.
    + destruct hasta; auto.
Qed.

(** What [obtener_ventas] does with the bounds it is given: exact match
    on the user, both bounds included, latest sale first. *)
Lemma obtener_ventas_filtra_y_ordena (m : mundo) (vs : list venta)
    (usuario : option string) (desde hasta : option Py.datetime) :
  coleccion_ventas m = Some vs ->
  exists res,
    obtener_ventas m usuario desde hasta = Retorna res
    /\ (forall v, In v res <-> In v vs /\ Spec.en_filtro usuario desde hasta v)
    /\ Sorted Spec.mas_reciente_primero res.
Proof.
  intros Hm. unfold obtener_ventas. rewrite Hm.
  eexists. split; [reflexivity|]. split.
  - intros v. rewrite <- cumple_en_filtro.
    unfold Mongo.find. rewrite <- filter_In.
    split; apply Permutation_in;
      [apply sort_perm|apply Permutation_sym, sort_perm].
  - apply (sort_sorted fecha_desc fecha_desc_total).
Qed.

(** The upper bound that [cargar_ventas] passes for a date is 23:59:59
    of that day, with no fraction of a second. *)
Lemma cargar_ventas_hasta (m : mundo) (usuario : string)
    (desde : option fecha) (f : fecha) :
  cargar_ventas m usuario desde (Some f)
  = obtener_ventas m (Py.or_None (Py.strip usuario))
      (option_map (fun g => Py.strptime_Ymd (anio g) (mes g) (dia g)) desde)
      (Some (Py.mk_datetime (anio f) (mes f) (dia f) 23 59 59 0)).
Proof. reflexivity. Qed.

(** C8, at the failing input. A sale is made on 31 January 2025 at
    23:59:59.500 and is in the history when no date is given; asked for
    the sales up to 31 January 2025, [cargar_ventas] leaves it out, because
    the bound it builds is 23:59:59.000 and not the end of the day. *)
Theorem C8_ultimo_segundo_fuera :
  exists v,
    coleccion_ventas Ejemplos.tienda_tras_venta_tardia = Some [v]
    /\ (Py.year (v_fecha v), Py.month (v_fecha v), Py.day (v_fecha v))
       = (anio Ejemplos.dia_31, mes Ejemplos.dia_31, dia Ejemplos.dia_31)
    /\ cargar_ventas Ejemplos.tienda_tras_venta_tardia "" None None
       = Retorna [v]
    /\ cargar_ventas Ejemplos.tienda_tras_venta_tardia "" None
         (Some Ejemplos.dia_31)
       = Retorna [].
Proof.
  eexists. repeat split; reflexivity.
Qed.

(* ================================================================== *)
(** ** More on the catalog *)

Lemma con_productos_mismo (m : mundo) (ps : list producto) :
  coleccion_productos m = Some ps -> con_productos m ps = m.
Proof. destruct m as [cp cv sa]. simpl. now intros ->. Qed.


Lemma find_one_None_update {doc : Type} (f : doc -> bool) (g : doc -> doc)
    (c : list doc) :
  Mongo.find_one f c = None -> Mongo.update_one f g c = (c, 0).
Proof.
  induction c as [|d c IH]; simpl; [reflexivity|].
  destruct (f d); [discriminate|]. intros H. now rewrite (IH H).
Qed.

Lemma find_one_None_delete {doc : Type} (f : doc -> bool) (c : list doc) :
  Mongo.find_one f c = None -> Mongo.delete_one f c = (c, 0).
Proof.
  induction c as [|d c IH]; simpl; [reflexivity|].
  destruct (f d); [discriminate|]. intros H. now rewrite (IH H).
Qed.

Lemma delete_one_app {doc : Type} (f : doc -> bool)
    (antes despues : list doc) (d : doc) :
  Mongo.find_one f antes = None ->
  f d = true ->
  Mongo.delete_one f (antes ++ d :: despues) = (antes ++ despues, 1).
Proof.
  induction antes as [|x antes IH]; simpl; intros Hn Hd.
  - now rewrite Hd.
  - destruct (f x); [discriminate|]. now rewrite IH.
Qed.

Lemma find_one_None_id (id : Z) (ps : list producto) :
  Mongo.find_one (por_id id) ps = None <-> ~ In id (map id_producto ps).
Proof.
  unfold por_id. induction ps as [|p ps IH]; simpl; [tauto|].
  destruct (id_producto p =? id) eqn:E.
  - split; [discriminate|]. intros H. exfalso. apply H. left. lia.
  - rewrite IH. split; [|tauto]. intros H [H1|H1]; [lia|tauto].
Qed.



(** X2. A call that raises leaves the whole state as it was: products,
    sale records and printed lines. *)
Theorem X2_llamada_que_falla_no_cambia (m : mundo) (c : llamada)
    (ex : excepcion) :
  falla m c = Some ex -> ejecutar m c = m.
Proof.
  destruct c as [id nom cat pre cant prov|id nd|id|e id q u]; simpl.
  - unfold agregar_producto.
    destruct (coleccion_productos m) as [ps|]; [|reflexivity].
    destruct (negb (Py.truthy nom)); [reflexivity|].
    destruct (negb (existsb (String.eqb cat) CATEGORIAS)); [reflexivity|].
    destruct (pre <? 0)%float; [reflexivity|].
    destruct (cant <? 0); [reflexivity|].
    destruct (negb (Py.truthy prov)); [reflexivity|].
    destruct (Mongo.find_one (por_id id) ps); [reflexivity|discriminate].
  - unfold modificar_producto.
    destruct (coleccion_productos m) as [ps|]; [|reflexivity].
    destruct (Mongo.update_one (por_id id) (set_campos nd) ps).
    discriminate.
  - unfold eliminar_producto.
    destruct (coleccion_productos m) as [ps|]; [|reflexivity].
    destruct (Mongo.delete_one (por_id id) ps). discriminate.
  - unfold realizar_venta.
    destruct (coleccion_productos m) as [ps|]; [|reflexivity].
    destruct (Mongo.find_one (por_id id) ps) as [prod|]; [|reflexivity].
    destruct (q <=? 0); [reflexivity|].
    destruct (cantidad prod <? q); [reflexivity|].
    simpl. destruct (coleccion_ventas m); [|discriminate].
    destruct (insert_one_lanza e); discriminate.
Qed.

Lemma X2_witness :
  ejecutar Ejemplos.tienda (Execute Ejemplos.red_bien 9 1 None)
  = Ejemplos.tienda.
Proof.
  apply (X2_llamada_que_falla_no_cambia Ejemplos.tienda
           (Execute Ejemplos.red_bien 9 1 None) (ValueError msg_no_existe)).
  reflexivity.
Defined.

(** X3. [modificar_producto] and [eliminar_producto] called with an
    identifier that no product has return False and leave the state as it
    was, for an identifier and data that the store accepts. *)
Theorem X3_id_desconocido_devuelve_False (m : mundo) (ps : list producto)
    (id : Z) (nd : cambios) :
  coleccion_productos m = Some ps ->
  Mongo.find_one (por_id id) ps = None ->
  cabe_int64 id ->
  cambios_admitidos nd ->
  modificar_producto m id nd = (m, Retorna false)
  /\ eliminar_producto m id = (m, Retorna false).
Proof.
  intros Hm Hf _ _. unfold modificar_producto, eliminar_producto.
  rewrite Hm, (find_one_None_update _ _ _ Hf), (find_one_None_delete _ _ Hf).
  now rewrite (con_productos_mismo m ps Hm).
Qed.

Lemma X3_witness :
  modificar_producto Ejemplos.tienda 9 (solo_cantidad 4)
  = (Ejemplos.tienda, Retorna false)
  /\ eliminar_producto Ejemplos.tienda 9 = (Ejemplos.tienda, Retorna false).
Proof.
  apply (X3_id_desconocido_devuelve_False Ejemplos.tienda
           [Ejemplos.teclado; Ejemplos.mouse] 9 (solo_cantidad 4)).
  - reflexivity.
  - reflexivity.
  - unfold cabe_int64. lia.
  - split; [|split].
    + simpl. do 4 right. left. discriminate.
    + discriminate.
    + intros n H. injection H as <-. unfold cabe_int64. lia.
Defined.

(** X4. [modificar_producto] on an identifier that is there, with data
    that the store accepts, returns True and rewrites the first product
    with that identifier and no other; a field whose key the data does
    not have keeps its value. *)
Theorem X4_modificar_el_primero (m : mundo) (ps : list producto)
    (prod : producto) (id : Z) (nd : cambios) :
  coleccion_productos m = Some ps ->
  Mongo.find_one (por_id id) ps = Some prod ->
  cambios_admitidos nd ->
  exists antes despues,
    ps = antes ++ prod :: despues
    /\ Mongo.find_one (por_id id) antes = None
    /\ modificar_producto m id nd
       = (con_productos m (antes ++ set_campos nd prod :: despues),
          Retorna true)
    /\ (c_id_producto nd = None ->
        id_producto (set_campos nd prod) = id_producto prod)
    /\ (c_nombre nd = None -> nombre (set_campos nd prod) = nombre prod)
    /\ (c_categoria nd = None ->
        categoria (set_campos nd prod) = categoria prod)
    /\ (c_precio nd = None -> precio (set_campos nd prod) = precio prod)
    /\ (c_cantidad nd = None ->
        cantidad (set_campos nd prod) = cantidad prod)
    /\ (c_proveedor nd = None ->
        proveedor (set_campos nd prod) = proveedor prod).
Proof.
  intros Hm Hf _.
  destruct (find_one_partes _ _ _ Hf) as (antes & despues & -> & Hn & Hd).
  exists antes, despues. split; [reflexivity|]. split; [exact Hn|]. split.
  - unfold modificar_producto. rewrite Hm, update_one_app by assumption.
    reflexivity.
  - unfold set_campos. simpl. repeat split; intros ->; reflexivity.
Qed.

Lemma X4_witness :
  exists antes despues,
    [Ejemplos.teclado; Ejemplos.mouse] = antes ++ Ejemplos.mouse :: despues
    /\ Mongo.find_one (por_id 1) antes = None
    /\ modificar_producto Ejemplos.tienda 1 (solo_cantidad 7)
       = (con_productos Ejemplos.tienda
            (antes ++ set_campos (solo_cantidad 7) Ejemplos.mouse :: despues),
          Retorna true)
    /\ (c_id_producto (solo_cantidad 7) = None ->
        id_producto (set_campos (solo_cantidad 7) Ejemplos.mouse)
        = id_producto Ejemplos.mouse)
    /\ (c_nombre (solo_cantidad 7) = None ->
        nombre (set_campos (solo_cantidad 7) Ejemplos.mouse)
        = nombre Ejemplos.mouse)
    /\ (c_categoria (solo_cantidad 7) = None ->
        categoria (set_campos (solo_cantidad 7) Ejemplos.mouse)
        = categoria Ejemplos.mouse)
    /\ (c_precio (solo_cantidad 7) = None ->
        precio (set_campos (solo_cantidad 7) Ejemplos.mouse)
        = precio Ejemplos.mouse)
    /\ (c_cantidad (solo_cantidad 7) = None ->
        cantidad (set_campos (solo_cantidad 7) Ejemplos.mouse)
        = cantidad Ejemplos.mouse)
    /\ (c_proveedor (solo_cantidad 7) = None ->
        proveedor (set_campos (solo_cantidad 7) Ejemplos.mouse)
        = proveedor Ejemplos.mouse).
Proof.
  apply (X4_modificar_el_primero Ejemplos.tienda
           [Ejemplos.teclado; Ejemplos.mouse] Ejemplos.mouse 1
           (solo_cantidad 7)).
  - reflexivity.
  - reflexivity.
  - split; [|split].
    + simpl. do 4 right. left. discriminate.
    + discriminate.
    + intros n H. injection H as <-. unfold cabe_int64. lia.
Defined.

Lemma update_one_ids {doc : Type} (f : doc -> bool) (g : doc -> doc)
    (clave : doc -> Z) (c : list doc) :
  (forall d, clave (g d) = clave d) ->
  map clave (fst (Mongo.update_one f g c)) = map clave c.
Proof.
  intros Hg. induction c as [|d c IH]; simpl; [reflexivity|].
  destruct (f d); simpl; [now rewrite Hg|].
  destruct (Mongo.update_one f g c) as [r n]. simpl in *. now rewrite IH.
Qed.

Lemma delete_one_In {doc : Type} (f : doc -> bool) (c : list doc) (d : doc) :
  In d (fst (Mongo.delete_one f c)) -> In d c.
Proof.
  induction c as [|x c IH]; simpl; [tauto|].
  destruct (f x); simpl; [tauto|].
  destruct (Mongo.delete_one f c) as [r n]. simpl in *. tauto.
Qed.

Lemma delete_one_NoDup (f : producto -> bool) (ps : list producto) :
  NoDup (map id_producto ps) ->
  NoDup (map id_producto (fst (Mongo.delete_one f ps))).
Proof.
  induction ps as [|p ps IH]; simpl; intros H; [constructor|].
  inversion H as [|x l Hnotin Hnd]; subst.
  destruct (f p); simpl; [exact Hnd|].
  pose proof (delete_one_In f ps) as Hin.
  destruct (Mongo.delete_one f ps) as [r n]. simpl in *.
  constructor; [|auto].
  intros Hx. apply Hnotin. apply in_map_iff in Hx as (q & Hq & Hqin).
  apply in_map_iff. exists q. auto.
Qed.

Lemma ids_unicos_tras_llamada (m : mundo) (c : llamada) :
  ids_unicos m -> conserva_ids c -> ids_unicos (ejecutar m c).
Proof.
  unfold ids_unicos. intros Hm Hc.
  destruct c as [id nom cat pre cant prov|id nd|id|e id q u]; simpl in *.
  - unfold agregar_producto.
    destruct (coleccion_productos m) as [ps|] eqn:Hps; [|igual Hps Hm].
    destruct (negb (Py.truthy nom)); [igual Hps Hm|].
    destruct (negb (existsb (String.eqb cat) CATEGORIAS)); [igual Hps Hm|].
    destruct (pre <? 0)%float; [igual Hps Hm|].
    destruct (cant <? 0); [igual Hps Hm|].
    destruct (negb (Py.truthy prov)); [igual Hps Hm|].
    destruct (Mongo.find_one (por_id id) ps) eqn:Hf; [igual Hps Hm|].
    simpl. intros ps' H. injection H as <-.
    unfold Mongo.insert_one. rewrite map_app. simpl.
    apply (Permutation_NoDup (l := id :: map id_producto ps)).
    + rewrite <- Permutation_cons_append. reflexivity.
    + constructor; [now apply find_one_None_id|exact (Hm ps eq_refl)].
  - unfold modificar_producto.
    destruct (coleccion_productos m) as [ps|] eqn:Hps; [|igual Hps Hm].
    pose proof (update_one_ids (por_id id) (set_campos nd) id_producto ps)
      as H.
    destruct (Mongo.update_one (por_id id) (set_campos nd) ps) as [r n].
    simpl in *. intros ps' H'. injection H' as <-.
    rewrite H; [exact (Hm ps eq_refl)|].
    intros d. unfold set_campos. simpl. now rewrite Hc.
  - unfold eliminar_producto.
    destruct (coleccion_productos m) as [ps|] eqn:Hps; [|igual Hps Hm].
    pose proof (delete_one_NoDup (por_id id) ps (Hm ps eq_refl)) as H.
    destruct (Mongo.delete_one (por_id id) ps) as [r n].
    simpl in *. intros ps' H'. now injection H' as <-.
  - unfold realizar_venta.
    destruct (coleccion_productos m) as [ps|] eqn:Hps; [|igual Hps Hm].
    destruct (Mongo.find_one (por_id id) ps) as [prod|]; [|igual Hps Hm].
    destruct (q <=? 0); [igual Hps Hm|].
    destruct (cantidad prod <? q); [igual Hps Hm|].
    assert (H : NoDup (map id_producto
                  (fst (Mongo.update_one (por_id id)
                          (set_campos (solo_cantidad (cantidad prod - q)))
                          ps)))).
    { rewrite update_one_ids; [exact (Hm ps eq_refl)|reflexivity]. }
    simpl.
    destruct (coleccion_ventas m); [destruct (insert_one_lanza e)|];
      simpl; intros ps' H'; now injection H' as <-.
Qed.

(** X5. Identifiers stay unique: from a catalog in which no two products
    share an identifier, after any sequence of calls whose [Update] data
    has no key [id_producto] (the window never sends one), no two products
    share an identifier. *)
Theorem X5_ids_unicos (m : mundo) (cs : list llamada) :
  ids_unicos m ->
  Forall conserva_ids cs ->
  ids_unicos (ejecutar_todas m cs).
Proof.
  intros Hm Hcs. revert m Hm.
  induction Hcs as [|c cs Hc Hcs IH]; intros m Hm; simpl; [exact Hm|].
  apply IH, ids_unicos_tras_llamada; assumption.
Qed.

Lemma X5_witness :
  ids_unicos
    (ejecutar_todas mundo_vacio
       [Add 1 "Mouse" "Accesorios" 10%float 3 "Acme";
        Add 1 "Otro" "Accesorios" 10%float 3 "Acme";
        Update 1 (solo_cantidad 7);
        Remove 1]).
Proof.
  apply (X5_ids_unicos mundo_vacio
           [Add 1 "Mouse" "Accesorios" 10%float 3 "Acme";
            Add 1 "Otro" "Accesorios" 10%float 3 "Acme";
            Update 1 (solo_cantidad 7);
            Remove 1]).
  - intros ps H. injection H as <-. constructor.
  - repeat constructor.
Defined.

(** X6. With unique identifiers, [eliminar_producto] on an identifier
    that is there returns True, removes that product and no other, and
    afterwards no product has the identifier. *)
Theorem X6_eliminar_quita_el_id (m : mundo) (ps : list producto)
    (prod : producto) (id : Z) :
  coleccion_productos m = Some ps ->
  NoDup (map id_producto ps) ->
  Mongo.find_one (por_id id) ps = Some prod ->
  exists antes despues,
    ps = antes ++ prod :: despues
    /\ eliminar_producto m id
       = (con_productos m (antes ++ despues), Retorna true)
    /\ Mongo.find_one (por_id id) (antes ++ despues) = None.
Proof.
  intros Hm Hnd Hf.
  destruct (find_one_partes _ _ _ Hf) as (antes & despues & -> & Hn & Hd).
  exists antes, despues. split; [reflexivity|]. split.
  - unfold eliminar_producto. rewrite Hm, delete_one_app by assumption.
    reflexivity.
  - apply find_one_None_id. rewrite map_app in *. simpl in Hnd.
    apply NoDup_remove_2 in Hnd. unfold por_id in Hd.
    replace id with (id_producto prod) by lia. exact Hnd.
Qed.

Lemma X6_witness :
  exists antes despues,
    [Ejemplos.teclado; Ejemplos.mouse] = antes ++ Ejemplos.mouse :: despues
    /\ eliminar_producto Ejemplos.tienda 1
       = (con_productos Ejemplos.tienda (antes ++ despues), Retorna true)
    /\ Mongo.find_one (por_id 1) (antes ++ despues) = None.
Proof.
  apply (X6_eliminar_quita_el_id Ejemplos.tienda
           [Ejemplos.teclado; Ejemplos.mouse] Ejemplos.mouse 1).
  - reflexivity.
  - simpl. repeat constructor; simpl; intuition discriminate.
  - reflexivity.
Defined.

(** X7. [mostrar_inventario] returns every product of the catalog, each
    as many times as the catalog holds it, by ascending identifier. *)
Theorem X7_mostrar_inventario_ordenado (m : mundo) (ps : list producto) :
  coleccion_productos m = Some ps ->
  exists res,
    mostrar_inventario m = Retorna res
    /\ Permutation res ps
    /\ Sorted Z.le (map id_producto res).
Proof.
  intros Hm. unfold mostrar_inventario. rewrite Hm, find_todos.
  eexists. split; [reflexivity|]. split; [apply sort_perm|apply sort_id_asc].
Qed.

Lemma X7_witness :
  exists res,
    mostrar_inventario Ejemplos.tienda = Retorna res
    /\ Permutation res [Ejemplos.teclado; Ejemplos.mouse]
    /\ Sorted Z.le (map id_producto res).
Proof.
  apply (X7_mostrar_inventario_ordenado Ejemplos.tienda
           [Ejemplos.teclado; Ejemplos.mouse]).
  reflexivity.
Defined.

(** X8. A search by category returns the products whose category is
    the value, letter for letter, and no other, by ascending
    identifier. *)
Theorem X8_buscar_por_categoria (m : mundo) (ps : list producto)
    (valor : string) :
  coleccion_productos m = Some ps ->
  exists res,
    buscar_producto m "categoria" valor = Some (Retorna res)
    /\ (forall p, In p res <-> In p ps /\ categoria p = valor)
    /\ Permutation res (filter (fun p => (categoria p =? valor)%string) ps)
    /\ Sorted Z.le (map id_producto res).
Proof.
  intros Hm. unfold buscar_producto. rewrite Hm. simpl.
  eexists. split; [reflexivity|]. split; [|split].
  - intros p. rewrite <- String.eqb_eq.
    rewrite <- (filter_In (fun p => (categoria p =? valor)%string)).
    unfold Mongo.find.
    split; apply Permutation_in;
      [apply sort_perm|apply Permutation_sym, sort_perm].
  - apply sort_perm.
  - apply sort_id_asc.
Qed.

Lemma X8_witness :
  exists res,
    buscar_producto Ejemplos.tienda "categoria" "Accesorios"
    = Some (Retorna res)
    /\ (forall p,
          In p res
          <-> In p [Ejemplos.teclado; Ejemplos.mouse]
              /\ categoria p = "Accesorios"%string)
    /\ Permutation res
         (filter (fun p => (categoria p =? "Accesorios")%string)
            [Ejemplos.teclado; Ejemplos.mouse])
    /\ Sorted Z.le (map id_producto res).
Proof.
  apply (X8_buscar_por_categoria Ejemplos.tienda
           [Ejemplos.teclado; Ejemplos.mouse] "Accesorios").
  reflexivity.
Defined.

(* ================================================================== *)
(** ** More on sales *)

Lemma stock_total_app (a b : list producto) :
  stock_total (a ++ b) = stock_total a + stock_total b.
Proof. induction a as [|p a IH]; simpl; lia. Qed.

Lemma vendido_total_app (a b : list venta) :
  vendido_total (a ++ b) = vendido_total a + vendido_total b.
Proof. induction a as [|v a IH]; simpl; lia. Qed.

(** The units in stock and in the sale records, before and after one
    call of [realizar_venta]. *)
Lemma unidades_tras_venta (e : entorno) (m : mundo)
    (ps : list producto) (vs : list venta) (id q : Z)
    (usuario : option string) :
  coleccion_productos m = Some ps ->
  coleccion_ventas m = Some vs ->
  exists ps' vs',
    coleccion_productos (fst (realizar_venta e m id q usuario)) = Some ps'
    /\ coleccion_ventas (fst (realizar_venta e m id q usuario)) = Some vs'
    /\ stock_total ps' + vendido_total vs'
       <= stock_total ps + vendido_total vs
    /\ (insert_one_lanza e = None ->
        stock_total ps' + vendido_total vs'
        = stock_total ps + vendido_total vs)
    /\ (forall total err,
          snd (realizar_venta e m id q usuario) = Retorna total ->
          insert_one_lanza e = Some err ->
          stock_total ps' + vendido_total vs'
          = stock_total ps + vendido_total vs - q).
Proof.
  intros Hm Hv.
  assert (Hnada : exists ps' vs',
             coleccion_productos m = Some ps'
             /\ coleccion_ventas m = Some vs'
             /\ stock_total ps' + vendido_total vs'
                <= stock_total ps + vendido_total vs
             /\ (insert_one_lanza e = None ->
                 stock_total ps' + vendido_total vs'
                 = stock_total ps + vendido_total vs)).
  { exists ps, vs. repeat split; auto; lia. }
  unfold realizar_venta. rewrite Hm.
  destruct (Mongo.find_one (por_id id) ps) as [prod|] eqn:Hf.
  2:{ destruct Hnada as (a & b & H1 & H2 & H3 & H4). exists a, b. simpl.
      repeat split; auto. discriminate. }
  destruct (q <=? 0) eqn:H0.
  { destruct Hnada as (a & b & H1 & H2 & H3 & H4). exists a, b. simpl.
    repeat split; auto. discriminate. }
  destruct (cantidad prod <? q) eqn:H1.
  { destruct Hnada as (a & b & H1' & H2 & H3 & H4). exists a, b. simpl.
    repeat split; auto. discriminate. }
  destruct (find_one_partes _ _ _ Hf) as (antes & despues & -> & Hn & Hd).
  rewrite update_one_app by assumption.
  set (ps1 := antes ++ set_campos (solo_cantidad (cantidad prod - q)) prod
                :: despues).
  assert (Hs : stock_total ps1 = stock_total (antes ++ prod :: despues) - q).
  { unfold ps1. rewrite !stock_total_app. simpl. lia. }
  clearbody ps1. simpl. rewrite Hv.
  destruct (insert_one_lanza e) as [err|]; simpl.
  - exists ps1, vs.
    repeat split; try discriminate; intros; try assumption; lia.
  - eexists ps1, _. split; [reflexivity|]. split; [reflexivity|].
    unfold Mongo.insert_one. rewrite vendido_total_app. simpl.
    repeat split; try discriminate; intros; lia.
Qed.

(** X9. Units are conserved by a sale: whatever the call and its
    outcome, the units in stock plus the units in the sale records never
    grow, and they stay the same whenever the insertion of the sale record
    does not raise; they shrink, by the quantity sold, exactly when a sale
    goes through and its record is lost. *)
Theorem X9_unidades_conservadas (e : entorno) (m : mundo)
    (ps : list producto) (vs : list venta) (id q : Z)
    (usuario : option string) :
  coleccion_productos m = Some ps ->
  coleccion_ventas m = Some vs ->
  exists ps' vs',
    coleccion_productos (fst (realizar_venta e m id q usuario)) = Some ps'
    /\ coleccion_ventas (fst (realizar_venta e m id q usuario)) = Some vs'
    /\ stock_total ps' + vendido_total vs'
       <= stock_total ps + vendido_total vs
    /\ (insert_one_lanza e = None ->
        stock_total ps' + vendido_total vs'
        = stock_total ps + vendido_total vs)
    /\ (forall total err,
          snd (realizar_venta e m id q usuario) = Retorna total ->
          insert_one_lanza e = Some err ->
          stock_total ps' + vendido_total vs'
          = stock_total ps + vendido_total vs - q).
Proof. apply unidades_tras_venta. Qed.

Lemma X9_witness :
  exists ps' vs',
    coleccion_productos
      (fst (realizar_venta Ejemplos.red_caida Ejemplos.tienda 1 2 None))
    = Some ps'
    /\ coleccion_ventas
         (fst (realizar_venta Ejemplos.red_caida Ejemplos.tienda 1 2 None))
       = Some vs'
    /\ stock_total ps' + vendido_total vs'
       <= stock_total [Ejemplos.teclado; Ejemplos.mouse] + vendido_total []
    /\ (insert_one_lanza Ejemplos.red_caida = None ->
        stock_total ps' + vendido_total vs'
        = stock_total [Ejemplos.teclado; Ejemplos.mouse] + vendido_total [])
    /\ (forall total err,
          snd (realizar_venta Ejemplos.red_caida Ejemplos.tienda 1 2 None)
          = Retorna total ->
          insert_one_lanza Ejemplos.red_caida = Some err ->
          stock_total ps' + vendido_total vs'
          = stock_total [Ejemplos.teclado; Ejemplos.mouse]
            + vendido_total [] - 2).
Proof.
  apply (X9_unidades_conservadas Ejemplos.red_caida Ejemplos.tienda
           [Ejemplos.teclado; Ejemplos.mouse] [] 1 2 None).
  - reflexivity.
  - reflexivity.
Defined.

(** X10. A sale that goes through and is recorded shows in the history
    of the user who made it: [obtener_ventas] filtered by that user returns
    a record with the product, the quantity, the total and the time of
    the sale, the time cut to the millisecond. *)
Theorem X10_venta_en_el_historial (e : entorno) (m : mundo)
    (ps : list producto) (vs : list venta) (prod : producto) (id q : Z)
    (usr : string) :
  coleccion_productos m = Some ps ->
  coleccion_ventas m = Some vs ->
  Mongo.find_one (por_id id) ps = Some prod ->
  0 < q <= cantidad prod ->
  insert_one_lanza e = None ->
  usr <> EmptyString ->
  exists v res,
    obtener_ventas (fst (realizar_venta e m id q (Some usr))) (Some usr)
      None None
    = Retorna res
    /\ In v res
    /\ v_id_producto v = id
    /\ v_nombre v = nombre prod
    /\ v_cantidad v = q
    /\ v_total v = Py.mul_int_float q (precio prod)
    /\ v_usuario v = Some usr
    /\ v_fecha v = Mongo.a_milisegundos (now e).
Proof.
  intros Hm Hv Hf Hq He Hu.
  set (v := almacenada
              {| v_id_producto := id; v_nombre := nombre prod;
                 v_cantidad := q; v_precio_unitario := precio prod;
                 v_total := Py.mul_int_float q (precio prod);
                 v_fecha := now e; v_usuario := Some usr |}).
  assert (H1 : coleccion_ventas (fst (realizar_venta e m id q (Some usr)))
               = Some (vs ++ [v])).
  { unfold realizar_venta. rewrite Hm, Hf.
    destruct (q <=? 0) eqn:H0; [lia|].
    destruct (cantidad prod <? q) eqn:H2; [lia|].
    simpl. rewrite Hv, He. reflexivity. }
  destruct (obtener_ventas_filtra_y_ordena _ (vs ++ [v]) (Some usr) None None
              H1) as (res & Hr & Hin & _).
  exists v, res. split; [exact Hr|]. split.
  - apply Hin. split; [apply in_or_app; right; simpl; auto|].
    repeat split; try discriminate.
    intros u Hu' _. now injection Hu' as <-.
  - repeat split.
Qed.

Lemma X10_witness :
  exists v res,
    obtener_ventas
      (fst (realizar_venta Ejemplos.red_bien Ejemplos.tienda 1 2
              (Some "alice"%string)))
      (Some "alice"%string) None None
    = Retorna res
    /\ In v res
    /\ v_id_producto v = 1
    /\ v_nombre v = nombre Ejemplos.mouse
    /\ v_cantidad v = 2
    /\ v_total v = Py.mul_int_float 2 (precio Ejemplos.mouse)
    /\ v_usuario v = Some "alice"%string
    /\ v_fecha v = Mongo.a_milisegundos (now Ejemplos.red_bien).
Proof.
  apply (X10_venta_en_el_historial Ejemplos.red_bien Ejemplos.tienda
           [Ejemplos.teclado; Ejemplos.mouse] [] Ejemplos.mouse 1 2 "alice").
  - reflexivity.
  - reflexivity.
  - reflexivity.
  - simpl. lia.
  - reflexivity.
  - discriminate.
Defined.

(** X11. [obtener_ventas] returns the sales that pass every filter given
    and no other: the user, when a non-empty one is given, is exactly the
    sale's; the date is within the bounds, each cut to the millisecond as
    the stored dates are, both included; the result goes from the latest
    sale to the earliest.  An empty user text is no filter. *)
Theorem X11_obtener_ventas (m : mundo) (vs : list venta)
    (usuario : option string) (desde hasta : option Py.datetime) :
  coleccion_ventas m = Some vs ->
  exists res,
    obtener_ventas m usuario desde hasta = Retorna res
    /\ (forall v, In v res <-> In v vs /\ Spec.en_filtro usuario desde hasta v)
    /\ Sorted Spec.mas_reciente_primero res.
Proof. apply obtener_ventas_filtra_y_ordena. Qed.

Lemma X11_witness :
  exists res,
    obtener_ventas Ejemplos.tienda_tras_venta_tardia (Some "alice"%string)
      (Some Ejemplos.mediodia) None
    = Retorna res
    /\ (forall v,
          In v res
          <-> In v [almacenada
                      (mk_venta 1 "Mouse" 2 10%float
                         (Py.mul_int_float 2 10%float)
                         Ejemplos.ultimo_segundo (Some "alice"%string))]
              /\ Spec.en_filtro (Some "alice"%string)
                   (Some Ejemplos.mediodia) None v)
    /\ Sorted Spec.mas_reciente_primero res.
Proof.
  apply (X11_obtener_ventas Ejemplos.tienda_tras_venta_tardia
           [almacenada
              (mk_venta 1 "Mouse" 2 10%float (Py.mul_int_float 2 10%float)
                 Ejemplos.ultimo_segundo (Some "alice"%string))]
           (Some "alice"%string) (Some Ejemplos.mediodia) None).
  reflexivity.
Defined.

(* ================================================================== *)
(** ** More on the history window *)

Lemma lstrip_solo_espacios (s : string) :
  solo_espacios s -> Py.lstrip s = EmptyString.
Proof.
  unfold solo_espacios. induction s as [|c s IH]; simpl; [reflexivity|].
  intros H. apply andb_true_iff in H as [Hc Hs]. rewrite Hc. auto.
Qed.

Lemma cumple_sin_filtros (v : venta) :
  cumple {| f_usuario := None; f_gte := None; f_lte := None |} v = true.
Proof. reflexivity. Qed.

Lemma filter_todos {A : Type} (f : A -> bool) (l : list A) :
  (forall x, f x = true) -> filter f l = l.
Proof.
  intros H. induction l as [|x l IH]; simpl; [reflexivity|].
  now rewrite H, IH.
Qed.

(** X12. With the date fields blank and a user field that is blank or
    only white space, the history window gets every sale record, from the
    latest to the earliest. *)
Theorem X12_historial_sin_filtros (m : mundo) (vs : list venta)
    (entry_usuario : string) :
  coleccion_ventas m = Some vs ->
  solo_espacios entry_usuario ->
  exists res,
    cargar_ventas m entry_usuario None None = Retorna res
    /\ Permutation res vs
    /\ Sorted Spec.mas_reciente_primero res.
Proof.
  intros Hm Hs. unfold cargar_ventas, Py.strip.
  rewrite (lstrip_solo_espacios _ Hs). simpl.
  unfold obtener_ventas. rewrite Hm. simpl.
  eexists. split; [reflexivity|]. split.
  - rewrite sort_perm. unfold Mongo.find.
    rewrite filter_todos; [reflexivity|apply cumple_sin_filtros].
  - apply (sort_sorted fecha_desc fecha_desc_total).
Qed.

Lemma X12_witness :
  exists res,
    cargar_ventas Ejemplos.tienda_tras_venta_tardia "   " None None
    = Retorna res
    /\ Permutation res
         [almacenada
            (mk_venta 1 "Mouse" 2 10%float (Py.mul_int_float 2 10%float)
               Ejemplos.ultimo_segundo (Some "alice"%string))]
    /\ Sorted Spec.mas_reciente_primero res.
Proof.
  apply (X12_historial_sin_filtros Ejemplos.tienda_tras_venta_tardia
           [almacenada
              (mk_venta 1 "Mouse" 2 10%float (Py.mul_int_float 2 10%float)
                 Ejemplos.ultimo_segundo (Some "alice"%string))]
           "   ").
  - reflexivity.
  - reflexivity.
Defined.

(** [<=] on lists of integers of one length, one position at a time. *)
Lemma lex_leb_cons (x y : Z) (l1 l2 : list Z) :
  match Py.lex_compare (x :: l1) (y :: l2) with Gt => false | _ => true end
  = true
  <-> x < y
      \/ (x = y
          /\ match Py.lex_compare l1 l2 with Gt => false | _ => true end
             = true).
Proof.
  simpl. destruct (Z.compare_spec x y) as [H|H|H].
  - subst. split; [auto|]. intros [H|[_ H]]; [lia|exact H].
  - split; auto.
  - split; [discriminate|]. intros [H'|[H' _]]; lia.
Qed.

(** The dates between midnight and 23:59:59.000 of a day, for a time of
    day that is one. *)
Lemma dentro_del_dia (f : fecha) (d : Py.datetime) :
  hora_valida d ->
  Py.datetime_leb (Py.strptime_Ymd (anio f) (mes f) (dia f)) d = true
  /\ Py.datetime_leb d
       (Py.replace_hms (Py.strptime_Ymd (anio f) (mes f) (dia f)) 23 59 59)
     = true
  <-> Py.year d = anio f /\ Py.month d = mes f /\ Py.day d = dia f
      /\ ~ (Py.hour d = 23 /\ Py.minute d = 59 /\ Py.second d = 59
            /\ 0 < Py.microsecond d).
Proof.
  intros (Hh & Hmi & Hs & Hus).
  unfold Py.datetime_leb, Py.datetime_compare, Py.campos, Py.replace_hms,
    Py.strptime_Ymd.
  cbn [Py.year Py.month Py.day Py.hour Py.minute Py.second Py.microsecond].
  rewrite !lex_leb_cons. cbn [Py.lex_compare]. lia.
Qed.

(** X13. Asked for one day, as both the lower and the upper date, the
    history window gets the sales of that day up to 23:59:59.000 and no
    other: a sale of the day is left out exactly when it was made in the
    last second, after its start. *)
Theorem X13_ventas_de_un_dia (m : mundo) (vs : list venta) (f : fecha) :
  coleccion_ventas m = Some vs ->
  Forall (fun v => hora_valida (v_fecha v)) vs ->
  exists res,
    cargar_ventas m "" (Some f) (Some f) = Retorna res
    /\ forall v,
         In v res
         <-> In v vs
             /\ Py.year (v_fecha v) = anio f
             /\ Py.month (v_fecha v) = mes f
             /\ Py.day (v_fecha v) = dia f
             /\ ~ (Py.hour (v_fecha v) = 23 /\ Py.minute (v_fecha v) = 59
                   /\ Py.second (v_fecha v) = 59
                   /\ 0 < Py.microsecond (v_fecha v)).
Proof.
  intros Hm Hval.
  destruct (obtener_ventas_filtra_y_ordena m vs None
              (Some (Py.strptime_Ymd (anio f) (mes f) (dia f)))
              (Some (Py.replace_hms
                       (Py.strptime_Ymd (anio f) (mes f) (dia f)) 23 59 59))
              Hm) as (res & Hr & Hin & _).
  exists res. split; [exact Hr|].
  intros v. rewrite Hin. split.
  - intros (Hv & _ & Hd & Hh). split; [exact Hv|].
    rewrite Forall_forall in Hval.
    apply (dentro_del_dia f (v_fecha v) (Hval v Hv)). split.
    + apply (Hd _ eq_refl).
    + apply (Hh _ eq_refl).
  - intros (Hv & Hresto). split; [exact Hv|].
    rewrite Forall_forall in Hval.
    apply (dentro_del_dia f (v_fecha v) (Hval v Hv)) in Hresto
      as [Hd Hh].
    repeat split.
    + discriminate.
    + intros d H. now injection H as <-.
    + intros d H. now injection H as <-.
Qed.

Lemma X13_witness :
  exists res,
    cargar_ventas Ejemplos.tienda_tras_venta_tardia ""
      (Some Ejemplos.dia_31) (Some Ejemplos.dia_31)
    = Retorna res
    /\ forall v,
         In v res
         <-> In v [almacenada
                     (mk_venta 1 "Mouse" 2 10%float
                        (Py.mul_int_float 2 10%float)
                        Ejemplos.ultimo_segundo (Some "alice"%string))]
             /\ Py.year (v_fecha v) = anio Ejemplos.dia_31
             /\ Py.month (v_fecha v) = mes Ejemplos.dia_31
             /\ Py.day (v_fecha v) = dia Ejemplos.dia_31
             /\ ~ (Py.hour (v_fecha v) = 23 /\ Py.minute (v_fecha v) = 59
                   /\ Py.second (v_fecha v) = 59
                   /\ 0 < Py.microsecond (v_fecha v)).
Proof.
  apply (X13_ventas_de_un_dia Ejemplos.tienda_tras_venta_tardia
           [almacenada
              (mk_venta 1 "Mouse" 2 10%float (Py.mul_int_float 2 10%float)
                 Ejemplos.ultimo_segundo (Some "alice"%string))]
           Ejemplos.dia_31).
  - reflexivity.
  - repeat constructor; simpl; lia.
Defined.

(* ================================================================== *)
(** ** Users: lemmas *)

Lemma find_one_app_None {doc : Type} (f : doc -> bool) (a b : list doc) :
  Mongo.find_one f a = None ->
  Mongo.find_one f (a ++ b) = Mongo.find_one f b.
Proof.
  induction a as [|x a IH]; simpl; [reflexivity|].
  destruct (f x); [discriminate|exact IH].
Qed.

Lemma find_one_None_mas_fuerte {doc : Type} (f g : doc -> bool)
    (c : list doc) :
  (forall d, g d = true -> f d = true) ->
  Mongo.find_one f c = None -> Mongo.find_one g c = None.
Proof.
  intros Hfg. induction c as [|x c IH]; simpl; [reflexivity|].
  destruct (f x) eqn:Hf; [discriminate|].
  destruct (g x) eqn:Hg; [|exact IH].
  apply Hfg in Hg. congruence.
Qed.

Lemma find_one_Some_In {doc : Type} (f : doc -> bool) (c : list doc)
    (d : doc) :
  Mongo.find_one f c = Some d -> In d c /\ f d = true.
Proof.
  intros H. destruct (find_one_partes f c d H) as (a & b & -> & _ & Hd).
  split; [apply in_or_app; right; left; reflexivity|exact Hd].
Qed.

Lemma find_one_None_todos {doc : Type} (f : doc -> bool) (c : list doc) :
  Mongo.find_one f c = None <-> forall d, In d c -> f d = false.
Proof.
  induction c as [|x c IH]; simpl; [tauto|].
  destruct (f x) eqn:Hx.
  - split; [discriminate|]. intros H. specialize (H x (or_introl eq_refl)).
    congruence.
  - rewrite IH. split; [|auto]. intros H d [<-|Hd]; auto.
Qed.

Lemma por_credenciales_username (usr pwd : string) (d : Usuarios.usuario) :
  Usuarios.por_credenciales usr pwd d = true ->
  Usuarios.por_username usr d = true.
Proof.
  unfold Usuarios.por_credenciales, Usuarios.por_username.
  intros H. now apply andb_true_iff in H.
Qed.

Lemma find_one_None_username (usr : string) (us : list Usuarios.usuario) :
  Mongo.find_one (Usuarios.por_username usr) us = None
  <-> ~ In usr (map Usuarios.username us).
Proof.
  rewrite find_one_None_todos, in_map_iff. unfold Usuarios.por_username.
  split.
  - intros H (d & Hu & Hd). specialize (H d Hd).
    rewrite Hu, String.eqb_refl in H. discriminate.
  - intros H d Hd. destruct (String.eqb_spec (Usuarios.username d) usr);
      [|reflexivity].
    exfalso. apply H. now exists d.
Qed.

(** The outcome of [crear_usuario] with both texts non-empty. *)
Lemma crear_usuario_no_vacio (us : list Usuarios.usuario) (usr pwd : string)
    (por : option string) :
  usr <> EmptyString ->
  pwd <> EmptyString ->
  Usuarios.crear_usuario (Some us) usr pwd por
  = match Mongo.find_one (Usuarios.por_username usr) us with
    | Some _ =>
        (Some us,
         Usuarios.Lanza (Usuarios.ValueError (Usuarios.msg_usuario_existe usr)))
    | None =>
        (Some (us ++ [Usuarios.mk_usuario usr pwd por]),
         Usuarios.Retorna (Usuarios.mk_usuario usr pwd por))
    end.
Proof.
  intros Hu Hp. unfold Usuarios.crear_usuario.
  destruct usr; [congruence|]. destruct pwd; [congruence|]. reflexivity.
Qed.

(** X14. An account created by [crear_usuario] logs in with its user
    name and password: [validar_login] returns the very document created;
    with the same user name and any other password it returns [None]. *)
Theorem X14_crear_y_validar (us : list Usuarios.usuario) (usr pwd : string)
    (por : option string) :
  usr <> EmptyString ->
  pwd <> EmptyString ->
  ~ In usr (map Usuarios.username us) ->
  exists c',
    Usuarios.crear_usuario (Some us) usr pwd por
    = (c', Usuarios.Retorna (Usuarios.mk_usuario usr pwd por))
    /\ Usuarios.validar_login c' usr pwd
       = Usuarios.Retorna (Some (Usuarios.mk_usuario usr pwd por))
    /\ forall otra,
         otra <> pwd ->
         Usuarios.validar_login c' usr otra = Usuarios.Retorna None.
Proof.
  intros Hu Hp Hn. apply find_one_None_username in Hn.
  rewrite (crear_usuario_no_vacio us usr pwd por Hu Hp), Hn.
  eexists. split; [reflexivity|].
  unfold Usuarios.validar_login. split.
  - rewrite find_one_app_None.
    + simpl. unfold Usuarios.por_credenciales. simpl.
      now rewrite !String.eqb_refl.
    + apply (find_one_None_mas_fuerte (Usuarios.por_username usr));
        [apply por_credenciales_username|exact Hn].
  - intros otra Ho. rewrite find_one_app_None.
    + simpl. unfold Usuarios.por_credenciales. simpl.
      rewrite String.eqb_refl.
      destruct (String.eqb_spec pwd otra); [congruence|reflexivity].
    + apply (find_one_None_mas_fuerte (Usuarios.por_username usr));
        [apply por_credenciales_username|exact Hn].
Qed.

Lemma X14_witness :
  exists c',
    Usuarios.crear_usuario (Some [Usuarios.admin]) "bob" "pw1"
      (Some "admin"%string)
    = (c', Usuarios.Retorna
             (Usuarios.mk_usuario "bob" "pw1" (Some "admin"%string)))
    /\ Usuarios.validar_login c' "bob" "pw1"
       = Usuarios.Retorna
           (Some (Usuarios.mk_usuario "bob" "pw1" (Some "admin"%string)))
    /\ forall otra,
         otra <> "pw1"%string ->
         Usuarios.validar_login c' "bob" otra = Usuarios.Retorna None.
Proof.
  apply (X14_crear_y_validar [Usuarios.admin] "bob" "pw1"
           (Some "admin"%string)).
  - discriminate.
  - discriminate.
  - simpl. intros [H|[]]. discriminate.
Defined.

(** X15. [crear_usuario] with a user name that an account already has
    raises the error of the existing user and leaves every account as it
    was, the password of the existing one included. *)
Theorem X15_usuario_repetido (us : list Usuarios.usuario)
    (d : Usuarios.usuario) (usr pwd : string) (por : option string) :
  In d us ->
  Usuarios.username d = usr ->
  usr <> EmptyString ->
  pwd <> EmptyString ->
  Usuarios.crear_usuario (Some us) usr pwd por
  = (Some us,
     Usuarios.Lanza (Usuarios.ValueError (Usuarios.msg_usuario_existe usr))).
Proof.
  intros Hin Hd Hu Hp.
  rewrite (crear_usuario_no_vacio us usr pwd por Hu Hp).
  destruct (Mongo.find_one (Usuarios.por_username usr) us) eqn:Hf;
    [reflexivity|].
  exfalso. apply find_one_None_username in Hf. apply Hf.
  apply in_map_iff. now exists d.
Qed.

Lemma X15_witness :
  Usuarios.crear_usuario (Some [Usuarios.admin]) "admin" "otra" None
  = (Some [Usuarios.admin],
     Usuarios.Lanza
       (Usuarios.ValueError (Usuarios.msg_usuario_existe "admin"))).
Proof.
  apply (X15_usuario_repetido [Usuarios.admin] Usuarios.admin "admin" "otra"
           None).
  - simpl. auto.
  - reflexivity.
  - discriminate.
  - discriminate.
Defined.

(** X16. [validar_login] returns an account only when both its user name
    and its password are the ones given, letter for letter, and returns
    [None] only when no account has both. *)
Theorem X16_validar_login_exacto (us : list Usuarios.usuario)
    (usr pwd : string) :
  exists r,
    Usuarios.validar_login (Some us) usr pwd = Usuarios.Retorna r
    /\ match r with
       | Some d =>
           In d us /\ Usuarios.username d = usr /\ Usuarios.password d = pwd
       | None =>
           forall d, In d us ->
             ~ (Usuarios.username d = usr /\ Usuarios.password d = pwd)
       end.
Proof.
  unfold Usuarios.validar_login. eexists. split; [reflexivity|].
  destruct (Mongo.find_one (Usuarios.por_credenciales usr pwd) us) as [d|]
    eqn:Hf.
  - apply find_one_Some_In in Hf as [Hin Hd].
    unfold Usuarios.por_credenciales in Hd.
    apply andb_true_iff in Hd as [H1 H2].
    apply String.eqb_eq in H1, H2. auto.
  - intros d Hin [H1 H2].
    apply (proj1 (find_one_None_todos _ _) Hf) in Hin.
    unfold Usuarios.por_credenciales in Hin.
    rewrite H1, H2, !String.eqb_refl in Hin. discriminate.
Qed.

Lemma crear_usuario_unicos (c : option (list Usuarios.usuario))
    (usr pwd : string) (por : option string) :
  (forall us, c = Some us -> usernames_unicos us /\ us <> []) ->
  forall us',
    fst (Usuarios.crear_usuario c usr pwd por) = Some us' ->
    usernames_unicos us' /\ us' <> [].
Proof.
  intros Hc. unfold Usuarios.crear_usuario.
  destruct c as [us|]; [|discriminate].
  destruct (negb (Py.truthy usr)); [exact Hc|].
  destruct (negb (Py.truthy pwd)); [exact Hc|].
  destruct (Mongo.find_one (Usuarios.por_username usr) us) eqn:Hf;
    [exact Hc|].
  simpl. intros us' H. injection H as <-.
  destruct (Hc us eq_refl) as [Hu _]. split.
  - unfold usernames_unicos, Mongo.insert_one in *. rewrite map_app. simpl.
    apply (Permutation_NoDup (l := usr :: map Usuarios.username us)).
    + rewrite <- Permutation_cons_append. reflexivity.
    + constructor; [now apply find_one_None_username|exact Hu].
  - unfold Mongo.insert_one. intros H. now apply app_eq_nil in H as [_ H].
Qed.

(** X17. From start-up on there is always an account and no two accounts
    share a user name: if the collection found at start-up has unique
    user names, then after the start-up step and any series of calls of
    [crear_usuario] the collection is not empty and its user names are
    unique. *)
Theorem X17_cuentas_unicas (us : list Usuarios.usuario) (altas : list alta) :
  usernames_unicos us ->
  exists us',
    registrar_todos (Some (fst (Usuarios.arranque us))) altas = Some us'
    /\ usernames_unicos us'
    /\ us' <> [].
Proof.
  intros Hu.
  assert (H0 : forall l, Some (fst (Usuarios.arranque us)) = Some l ->
                         usernames_unicos l /\ l <> []).
  { intros l H. injection H as <-. unfold Usuarios.arranque.
    destruct us as [|d us]; simpl.
    - split; [repeat constructor; simpl; tauto|discriminate].
    - split; [exact Hu|discriminate]. }
  assert (H1 : exists l, Some (fst (Usuarios.arranque us)) = Some l)
    by (eexists; reflexivity).
  revert H0 H1. generalize (Some (fst (Usuarios.arranque us))).
  induction altas as [|a altas IH]; intros c H0 [l Hl]; simpl.
  - exists l. split; [exact Hl|]. auto.
  - apply IH.
    + apply crear_usuario_unicos. exact H0.
    + subst c. unfold Usuarios.crear_usuario.
      destruct (negb (Py.truthy (fst (fst a)))); [simpl; now eauto|].
      destruct (negb (Py.truthy (snd (fst a)))); [simpl; now eauto|].
      destruct (Mongo.find_one (Usuarios.por_username (fst (fst a))) l);
        simpl; now eauto.
Qed.

Lemma X17_witness :
  exists us',
    registrar_todos (Some (fst (Usuarios.arranque [])))
      [("bob", "pw1", Some "admin"); ("bob", "pw2", Some "admin");
       ("", "x", None)]%string
    = Some us'
    /\ usernames_unicos us'
    /\ us' <> [].
Proof.
  apply (X17_cuentas_unicas []
           [("bob", "pw1", Some "admin"); ("bob", "pw2", Some "admin");
            ("", "x", None)]%string).
  constructor.
Defined.

(* ================================================================== *)
(** ** The windows: lemmas *)


Lemma validar_login_tras_alta (us : list Usuarios.usuario)
    (usr pwd : string) (por : option string) :
  Mongo.find_one (Usuarios.por_username usr) us = None ->
  Usuarios.validar_login (Some (us ++ [Usuarios.mk_usuario usr pwd por]))
    usr pwd
  = Usuarios.Retorna (Some (Usuarios.mk_usuario usr pwd por)).
Proof.
  intros Hn. unfold Usuarios.validar_login. rewrite find_one_app_None.
  - simpl. unfold Usuarios.por_credenciales. simpl.
    now rewrite !String.eqb_refl.
  - apply (find_one_None_mas_fuerte (Usuarios.por_username usr));
      [apply por_credenciales_username|exact Hn].
Qed.

(** X18. An account registered through the window, with texts typed in
    ASCII, is stored under the stripped user name and password with the
    user of the session as its creator, after the accounts that were
    there, and logs in through the login window with the same two texts
    typed: the login sets [usuario_actual] to the stripped user name. *)
Theorem X18_registro_y_login (c c' : option (list Usuarios.usuario))
    (actual nuevo por : string) (entry_usuario entry_contrasena : string)
    (usuario_previo : option string) :
  Spec.en_ascii entry_usuario ->
  Spec.en_ascii entry_contrasena ->
  Usuarios.boton_registrar_usuario c (Some actual) entry_usuario
    entry_contrasena
  = (c', Usuarios.UsuarioCreado nuevo por) ->
  nuevo = Py.strip entry_usuario
  /\ por = actual
  /\ (exists us,
        c = Some us
        /\ c' = Some (us ++ [Usuarios.mk_usuario (Py.strip entry_usuario)
                               (Py.strip entry_contrasena) (Some actual)]))
  /\ Usuarios.intentar_login c' usuario_previo entry_usuario entry_contrasena
     = (Some nuevo, Usuarios.Bienvenido nuevo).
Proof.
  intros _ _.
  unfold Usuarios.boton_registrar_usuario, Usuarios.intentar_login.
  destruct (Py.strip entry_usuario) as [|a u] eqn:Eu;
    [simpl; discriminate|].
  destruct (Py.strip entry_contrasena) as [|b p] eqn:Ep;
    [simpl; discriminate|].
  cbn [Py.truthy negb orb].
  destruct c as [us|]; [|simpl; discriminate].
  rewrite crear_usuario_no_vacio by discriminate.
  destruct (Mongo.find_one (Usuarios.por_username (String a u)) us) eqn:Hf;
    [discriminate|].
  intros H. injection H as <- <- <-.
  rewrite (validar_login_tras_alta us _ _ _ Hf).
  repeat split. exists us. auto.
Qed.

Lemma X18_witness :
  "bob"%string = Py.strip "  bob "
  /\ "admin"%string = "admin"%string
  /\ (exists us,
        Some [Usuarios.admin] = Some us
        /\ Some [Usuarios.admin;
                 Usuarios.mk_usuario "bob" "pw1" (Some "admin"%string)]
           = Some (us ++ [Usuarios.mk_usuario (Py.strip "  bob ")
                            (Py.strip "pw1 ") (Some "admin"%string)]))
  /\ Usuarios.intentar_login
       (Some [Usuarios.admin;
              Usuarios.mk_usuario "bob" "pw1" (Some "admin"%string)])
       None "  bob " "pw1 "
     = (Some "bob"%string, Usuarios.Bienvenido "bob").
Proof.
  apply (X18_registro_y_login (Some [Usuarios.admin])
           (Some [Usuarios.admin;
                  Usuarios.mk_usuario "bob" "pw1" (Some "admin"%string)])
           "admin" "bob" "admin" "  bob " "pw1 " None).
  - reflexivity.
  - reflexivity.
  - reflexivity.
Defined.



(* ================================================================== *)
(** ** How the operations compose *)

Lemma stock_total_no_negativo (ps : list producto) :
  Forall (fun p => 0 <= cantidad p) ps -> 0 <= stock_total ps.
Proof. induction 1 as [|p ps Hp _ IH]; simpl; lia. Qed.

Lemma cantidades_tras_venta (e : entorno) (m : mundo) (ps : list producto)
    (id q : Z) (usuario : option string) :
  coleccion_productos m = Some ps ->
  Forall (fun p => 0 <= cantidad p) ps ->
  forall ps',
    coleccion_productos (fst (realizar_venta e m id q usuario)) = Some ps' ->
    Forall (fun p => 0 <= cantidad p) ps'.
Proof.
  intros Hm Hps. unfold realizar_venta. rewrite Hm.
  assert (Hnada : forall ps', coleccion_productos m = Some ps' ->
                              Forall (fun p => 0 <= cantidad p) ps').
  { intros ps' H. rewrite Hm in H. now injection H as <-. }
  destruct (Mongo.find_one (por_id id) ps) as [prod|]; [|exact Hnada].
  destruct (q <=? 0); [exact Hnada|].
  destruct (cantidad prod <? q) eqn:H1; [exact Hnada|].
  assert (H : Forall (fun p => 0 <= cantidad p)
                (fst (Mongo.update_one (por_id id)
                        (set_campos (solo_cantidad (cantidad prod - q)))
                        ps))).
  { apply update_one_Forall; [|exact Hps]. intros d _. simpl. lia. }
  simpl.
  destruct (coleccion_ventas m); [destruct (insert_one_lanza e)|];
    simpl; intros ps' H'; now injection H' as <-.
Qed.

(** X21. No overselling in a series of sales: from a catalog without
    negative quantities, after any series of calls of [realizar_venta],
    whatever their outcome, no quantity is negative and the units that the
    new sale records add up to are at most the units there were in
    stock. *)
Theorem X21_no_se_vende_de_mas (cs : list llamada) (m : mundo)
    (ps : list producto) (vs : list venta) :
  coleccion_productos m = Some ps ->
  coleccion_ventas m = Some vs ->
  Forall (fun p => 0 <= cantidad p) ps ->
  Forall es_venta cs ->
  exists ps' vs',
    coleccion_productos (ejecutar_todas m cs) = Some ps'
    /\ coleccion_ventas (ejecutar_todas m cs) = Some vs'
    /\ Forall (fun p => 0 <= cantidad p) ps'
    /\ stock_total ps' + vendido_total vs'
       <= stock_total ps + vendido_total vs
    /\ vendido_total vs' - vendido_total vs <= stock_total ps.
Proof.
  intros Hm Hv Hps Hcs.
  enough (H : exists ps' vs',
             coleccion_productos (ejecutar_todas m cs) = Some ps'
             /\ coleccion_ventas (ejecutar_todas m cs) = Some vs'
             /\ Forall (fun p => 0 <= cantidad p) ps'
             /\ stock_total ps' + vendido_total vs'
                <= stock_total ps + vendido_total vs).
  { destruct H as (ps' & vs' & H1 & H2 & H3 & H4).
    exists ps', vs'. repeat split; auto.
    pose proof (stock_total_no_negativo ps' H3). lia. }
  revert m ps vs Hm Hv Hps.
  induction Hcs as [|c cs Hc Hcs IH]; intros m ps vs Hm Hv Hps; simpl.
  - exists ps, vs. repeat split; auto. lia.
  - destruct c as [| | |e id q u]; simpl in Hc; try contradiction. simpl.
    destruct (unidades_tras_venta e m ps vs id q u Hm Hv)
      as (ps1 & vs1 & H1 & H2 & H3 & _).
    pose proof (cantidades_tras_venta e m ps id q u Hm Hps ps1 H1) as H4.
    destruct (IH _ ps1 vs1 H1 H2 H4) as (ps' & vs' & K1 & K2 & K3 & K4).
    exists ps', vs'. repeat split; auto. lia.
Qed.

Lemma X21_witness :
  exists ps' vs',
    coleccion_productos
      (ejecutar_todas Ejemplos.tienda
         [Execute Ejemplos.red_bien 1 2 None;
          Execute Ejemplos.red_bien 1 2 None])
    = Some ps'
    /\ coleccion_ventas
         (ejecutar_todas Ejemplos.tienda
            [Execute Ejemplos.red_bien 1 2 None;
             Execute Ejemplos.red_bien 1 2 None])
       = Some vs'
    /\ Forall (fun p => 0 <= cantidad p) ps'
    /\ stock_total ps' + vendido_total vs'
       <= stock_total [Ejemplos.teclado; Ejemplos.mouse] + vendido_total []
    /\ vendido_total vs' - vendido_total []
       <= stock_total [Ejemplos.teclado; Ejemplos.mouse].
Proof.
  apply (X21_no_se_vende_de_mas
           [Execute Ejemplos.red_bien 1 2 None;
            Execute Ejemplos.red_bien 1 2 None]
           Ejemplos.tienda [Ejemplos.teclado; Ejemplos.mouse] []).
  - reflexivity.
  - reflexivity.
  - repeat constructor; simpl; lia.
  - repeat constructor.
Defined.

(** X22. Adding a product with valid fields, a new identifier and
    integers that fit the store, and then removing that identifier gives
    the catalog back as it was, and the removal returns True. *)
Theorem X22_agregar_y_eliminar (m : mundo) (ps : list producto) (id : Z)
    (nom cat : string) (pre : float) (cant : Z) (prov : string) :
  coleccion_productos m = Some ps ->
  ~ Spec.viola_restriccion nom cat pre cant prov ->
  Mongo.find_one (por_id id) ps = None ->
  cabe_int64 id ->
  cabe_int64 cant ->
  eliminar_producto (fst (agregar_producto m id nom cat pre cant prov)) id
  = (m, Retorna true).
Proof.
  intros Hm Hv Hf _ _.
  rewrite (agregar_producto_valido m ps id nom cat pre cant prov Hm Hv), Hf.
  unfold eliminar_producto. simpl.
  rewrite delete_one_app; [|exact Hf|unfold por_id; simpl; apply Z.eqb_refl].
  rewrite app_nil_r. destruct m as [cp cv sa]. simpl in *. now subst.
Qed.

Lemma X22_witness :
  eliminar_producto
    (fst (agregar_producto Ejemplos.tienda 7 "Monitor" "Computadoras"
            120%float 4 "Acme")) 7
  = (Ejemplos.tienda, Retorna true).
Proof.
  apply (X22_agregar_y_eliminar Ejemplos.tienda
           [Ejemplos.teclado; Ejemplos.mouse] 7 "Monitor" "Computadoras"
           120%float 4 "Acme").
  - reflexivity.
  - intros [H|[H|[H|[H|H]]]]; try discriminate.
    apply H. simpl. auto.
  - reflexivity.
  - unfold cabe_int64. lia.
  - unfold cabe_int64. lia.
Defined.

(** X23. A sale uses what the last modification left: after
    [modificar_producto] on a product, with data that the store accepts
    and that has no key [id_producto], a sale of q units of it, with
    0 < q <= the quantity of the data (the product's own, when the data
    has none), returns q times the price of the data (the product's own,
    when the data has none). *)
Theorem X23_venta_tras_modificar (e : entorno) (m : mundo)
    (ps : list producto) (prod : producto) (id q : Z) (nd : cambios)
    (usuario : option string) :
  coleccion_productos m = Some ps ->
  Mongo.find_one (por_id id) ps = Some prod ->
  cambios_admitidos nd ->
  c_id_producto nd = None ->
  0 < q <= match c_cantidad nd with
           | Some n => n
           | None => cantidad prod
           end ->
  snd (realizar_venta e (fst (modificar_producto m id nd)) id q usuario)
  = Retorna (Py.mul_int_float q
               match c_precio nd with
               | Some x => x
               | None => precio prod
               end).
Proof.
  intros Hm Hf _ Hid Hq.
  destruct (find_one_partes _ _ _ Hf) as (antes & despues & Hps & Hn & Hd).
  assert (Hm' : modificar_producto m id nd
                = (con_productos m (antes ++ set_campos nd prod :: despues),
                   Retorna true)).
  { unfold modificar_producto. rewrite Hm, Hps.
    now rewrite update_one_app by assumption. }
  rewrite Hm'. simpl.
  apply (realizar_venta_pasa e _ (antes ++ set_campos nd prod :: despues)
           (set_campos nd prod) id q usuario antes despues);
    auto.
  unfold por_id, set_campos in *. simpl. now rewrite Hid.
Qed.

Lemma X23_witness :
  snd (realizar_venta Ejemplos.red_bien
         (fst (modificar_producto Ejemplos.tienda 1
                 (Ejemplos.solo_precio 99%float)))
         1 2 None)
  = Retorna
      (Py.mul_int_float 2
         match c_precio (Ejemplos.solo_precio 99%float) with
         | Some x => x
         | None => precio Ejemplos.mouse
         end).
Proof.
  apply (X23_venta_tras_modificar Ejemplos.red_bien Ejemplos.tienda
           [Ejemplos.teclado; Ejemplos.mouse] Ejemplos.mouse 1 2
           (Ejemplos.solo_precio 99%float) None).
  - reflexivity.
  - reflexivity.
  - split; [|split].
    + simpl. do 3 right. left. discriminate.
    + discriminate.
    + discriminate.
  - reflexivity.
  - simpl. lia.
Defined.
